(** * The status composer of [app/assets/v2/js/status.js]

    A shallow embedding of the composer widget: the three regular
    expressions that sniff the text, the [input] handler that chooses a
    preview, the keystroke handler that keeps the draft cache and the post
    button in step with the text, and [submitStatusUpdate] with its response
    handlers.

    Text is a [string] of 8-bit characters (code units below 256, where all
    the character classes of the source live).  The DOM is a record of the
    nodes the script touches, [localStorage] is a finite map, a [FormData]
    is the list of its appended entries, and every asynchronous call is an
    effect that carries the (defunctionalised) callback the source passes. *)

From Stdlib Require Import Ascii String List Bool Arith Lia DecimalString.
From stdpp Require Import base option gmap strings.
Import ListNotations.

Local Open Scope string_scope.
Local Open Scope list_scope.
Local Open Scope nat_scope.

Set Default Proof Using "Type".

(** ** JavaScript strings *)

Module JsString.

(** [s.length] *)
Definition len (s : string) : nat := String.length s.

(** [s.substr(0, n)] *)
Definition substr0 (n : nat) (s : string) : string := String.substring 0 n s.

(** [s.slice(1)] *)
Definition slice1 (s : string) : string :=
  match s with
  | EmptyString => EmptyString
  | String _ t => t
  end.

(** [s.startsWith(c)] for a one-character [c]. *)
Definition startsWith (c : ascii) (s : string) : bool :=
  match s with
  | String d _ => Ascii.eqb c d
  | EmptyString => false
  end.

(** The truthiness of a string: only the empty string is falsy. *)
Definition truthy (s : string) : bool :=
  match s with
  | EmptyString => false
  | String _ _ => true
  end.

Definition space (c : ascii) : bool := Ascii.eqb c " ".

(** [s.split(' ')], built from the right: the head of the result is the
    piece being read. *)
Fixpoint split_space (s : string) : list string :=
  match s with
  | EmptyString => [EmptyString]
  | String c t =>
      if space c then EmptyString :: split_space t
      else match split_space t with
           | w :: ws => String c w :: ws
           | [] => [String c EmptyString]
           end
  end.

(** [a.pop()] on the array [split] has just made (never empty). *)
Definition pop (a : list string) : string := List.last a EmptyString.

(** The characters [trim] strips: WhiteSpace and LineTerminator of
    ECMAScript, as far as they are below 256 (TAB, LF, VT, FF, CR, SP,
    NBSP). *)
Definition is_space (c : ascii) : bool :=
  let n := nat_of_ascii c in
  (((9 <=? n) && (n <=? 13)) || (n =? 32) || (n =? 160))%nat.

Fixpoint trim_start (s : string) : string :=
  match s with
  | EmptyString => EmptyString
  | String c t => if is_space c then trim_start t else s
  end.

(** Strips the trailing white space: a character survives when something
    other than white space is kept after it, or it is not white space. *)
Fixpoint trim_end (s : string) : string :=
  match s with
  | EmptyString => EmptyString
  | String c t =>
      match trim_end t with
      | EmptyString => if is_space c then EmptyString else String c EmptyString
      | t' => String c t'
      end
  end.

(** [s.trim()] *)
Definition trim (s : string) : string := trim_end (trim_start s).

(** A number turned into a string by [+]. *)
Definition of_nat (n : nat) : string := NilEmpty.string_of_uint (Nat.to_uint n).

End JsString.

(** ** Regular expressions

    The fragment of ECMAScript patterns the three literals of the source
    use, with the backtracking order of [RegExp.prototype.exec]: a matcher
    returns every way to match from a position, best first (greedy
    quantifiers try the longest run first, alternatives left to right), and
    the match is the first of them at the leftmost position that has one. *)

Module Regex.

(** A member of a bracket class. *)
Inductive citem : Type :=
| CChar (c : ascii)             (* a single character *)
| CRange (lo hi : ascii)        (* lo-hi *)
| CWord.                        (* \w *)

(** What a quantifier is applied to in the source: one character. *)
Inductive atom : Type :=
| Class (cs : list citem)       (* [...] *)
| Dot.                          (* . *)

Inductive regex : Type :=
| Str (s : string)                              (* literal characters *)
| One (a : atom)                                (* a class or a dot, once *)
| Rep (a : atom) (lo : nat) (hi : option nat)   (* a{lo,hi}; [None] is no bound *)
| Seq (r1 r2 : regex)
| Alt (r1 r2 : regex)                           (* r1|r2 *)
| Opt (r : regex)                               (* (?:r)? *)
| Group (i : nat) (r : regex)                   (* the i-th capturing ( ) *)
| NotAhead (r : regex)                          (* (?!r) *)
| WordB.                                        (* \b *)

(** [\w] is [A-Za-z0-9_]. *)
Definition is_word (c : ascii) : bool :=
  let n := nat_of_ascii c in
  (((65 <=? n) && (n <=? 90)) || ((97 <=? n) && (n <=? 122))
   || ((48 <=? n) && (n <=? 57)) || (n =? 95))%nat.

Definition citem_mem (c : ascii) (i : citem) : bool :=
  match i with
  | CChar d => Ascii.eqb c d
  | CRange lo hi =>
      ((nat_of_ascii lo <=? nat_of_ascii c) && (nat_of_ascii c <=? nat_of_ascii hi))%nat
  | CWord => is_word c
  end.

(** [.] is everything but a line terminator (LF and CR below 256). *)
Definition atom_mem (a : atom) (c : ascii) : bool :=
  match a with
  | Class cs => existsb (citem_mem c) cs
  | Dot => negb ((nat_of_ascii c =? 10) || (nat_of_ascii c =? 13))%nat
  end.

(** A position in the run of a matcher: the character just before it (for
    [\b]), the text still ahead, and the captures made so far, newest
    first. *)
Record pos : Type := Pos {
  before : option ascii;
  ahead : string;
  caps : list (nat * string)
}.

Fixpoint cap (i : nat) (cs : list (nat * string)) : option string :=
  match cs with
  | [] => None
  | (j, s) :: cs' => if Nat.eqb i j then Some s else cap i cs'
  end.

(** The text between two positions of one run. *)
Definition consumed (from to : string) : string :=
  String.substring 0 (String.length from - String.length to) from.

Fixpoint eat (lit : string) (b : option ascii) (s : string) : option (option ascii * string) :=
  match lit with
  | EmptyString => Some (b, s)
  | String c lit' =>
      match s with
      | String d s' => if Ascii.eqb c d then eat lit' (Some d) s' else None
      | EmptyString => None
      end
  end.

Definition more (hi : option nat) : bool :=
  match hi with
  | Some 0 => false
  | _ => true
  end.

Definition less (hi : option nat) : option nat :=
  match hi with
  | Some n => Some (Nat.pred n)
  | None => None
  end.

(** [a{lo,hi}], greedy: one more character first, stopping here second
    (allowed once [lo] characters have been taken). *)
Fixpoint rep (a : atom) (lo : nat) (hi : option nat)
    (b : option ascii) (s : string) (cs : list (nat * string)) : list pos :=
  let stop := if Nat.eqb lo 0 then [Pos b s cs] else [] in
  match s with
  | String c s' =>
      if more hi && atom_mem a c
      then rep a (Nat.pred lo) (less hi) (Some c) s' cs ++ stop
      else stop
  | EmptyString => stop
  end.

Definition word_opt (c : option ascii) : bool :=
  match c with
  | Some c => is_word c
  | None => false
  end.

Definition next_char (s : string) : option ascii :=
  match s with
  | String c _ => Some c
  | EmptyString => None
  end.

Fixpoint run (r : regex) (p : pos) : list pos :=
  match r with
  | Str lit =>
      match eat lit (before p) (ahead p) with
      | Some (b, s) => [Pos b s (caps p)]
      | None => []
      end
  | One a =>
      match ahead p with
      | String c s => if atom_mem a c then [Pos (Some c) s (caps p)] else []
      | EmptyString => []
      end
  | Rep a lo hi => rep a lo hi (before p) (ahead p) (caps p)
  | Seq r1 r2 => flat_map (run r2) (run r1 p)
  | Alt r1 r2 => run r1 p ++ run r2 p
  | Opt r => run r p ++ [p]
  | Group i r =>
      map (fun q => Pos (before q) (ahead q)
                      ((i, consumed (ahead p) (ahead q)) :: caps q))
          (run r p)
  | NotAhead r =>
      match run r p with
      | [] => [p]
      | _ :: _ => []
      end
  | WordB =>
      if xorb (word_opt (before p)) (word_opt (next_char (ahead p)))
      then [p] else []
  end.

(** The array [String.prototype.match] returns for a pattern without the
    [g] flag: element 0 and the capture groups ([undefined] as [None]). *)
Record found : Type := Found {
  whole : string;
  groups : list (nat * string)
}.

(** [m[i]] for [i >= 1]. *)
Definition group (i : nat) (m : found) : option string := cap i (groups m).

Fixpoint search (r : regex) (b : option ascii) (s : string) : option found :=
  match run r (Pos b s []) with
  | q :: _ => Some (Found (consumed s (ahead q)) (caps q))
  | [] =>
      match s with
      | String c s' => search r (Some c) s'
      | EmptyString => None
      end
  end.

(** [s.match(r)]: [None] is [null]. *)
Definition match_ (r : regex) (s : string) : option found := search r None s.

(** [https?:\/\/] *)
Definition scheme : regex := Seq (Str "http") (Seq (Opt (Str "s")) (Str "://")).

End Regex.

Import Regex.

(** The pattern of [url_re], piece by piece: [https?:\/\/], then group 1
    [(www\.)?], then [[-a-zA-Z0-9@:%._\+~#=]{2,256}], then [\.], then
    [[a-z]{2,10}], then [\b], then group 2, a starred
    [[-a-zA-Z0-9@:%_\+.~#?&//=]]. *)
Definition url_re : regex :=
  Seq scheme
 (Seq (Opt (Group 1 (Str "www.")))
 (Seq (Rep (Class [CChar "-"; CRange "a" "z"; CRange "A" "Z"; CRange "0" "9";
                   CChar "@"; CChar ":"; CChar "%"; CChar "."; CChar "_";
                   CChar "+"; CChar "~"; CChar "#"; CChar "="]) 2 (Some 256))
 (Seq (Str ".")
 (Seq (Rep (Class [CRange "a" "z"]) 2 (Some 10))
 (Seq WordB
      (Group 2 (Rep (Class [CChar "-"; CRange "a" "z"; CRange "A" "Z"; CRange "0" "9";
                            CChar "@"; CChar ":"; CChar "%"; CChar "_"; CChar "+";
                            CChar "."; CChar "~"; CChar "#"; CChar "?"; CChar "&";
                            CChar "/"; CChar "/"; CChar "="]) 0 None))))))).

(** [/(?:https?:\/\/|\/\/)?(?:www\.|m\.)?(?:youtu\.be\/|youtube\.com\/(?:embed\/|v\/|watch\?v=|watch\?.+&v=))([\w-]{11})(?![\w-])/] *)
Definition youtube_re : regex :=
  Seq (Opt (Alt scheme (Str "//")))
 (Seq (Opt (Alt (Str "www.") (Str "m.")))
 (Seq (Alt (Str "youtu.be/")
           (Seq (Str "youtube.com/")
                (Alt (Str "embed/")
                (Alt (Str "v/")
                (Alt (Str "watch?v=")
                     (Seq (Str "watch?") (Seq (Rep Dot 1 None) (Str "&v="))))))))
 (Seq (Group 1 (Rep (Class [CWord; CChar "-"]) 11 (Some 11)))
      (NotAhead (One (Class [CWord; CChar "-"])))))).

(** [/(?:https?:\/\/)?(?:media0\.)?(?:giphy\.com\/media\/)/] *)
Definition giphy_re : regex :=
  Seq (Opt scheme) (Seq (Opt (Str "media0.")) (Str "giphy.com/media/")).

(** [1 + ] the number of capturing groups: the [length] of a match array. *)
Fixpoint ngroups (r : regex) : nat :=
  match r with
  | Seq r1 r2 | Alt r1 r2 => ngroups r1 + ngroups r2
  | Opt r | NotAhead r => ngroups r
  | Group _ r => S (ngroups r)
  | Str _ | One _ | Rep _ _ _ | WordB => 0
  end.

Definition array_length (r : regex) : nat := S (ngroups r).

(** ** The page

    What the script reads but never writes: [document.contxt], the location,
    the form controls next to the text box. *)

Record page : Type := Page {
  github_handle : string;      (* document.contxt.github_handle; falsy when empty *)
  youtube_key : string;        (* document.contxt.youtube_key *)
  href : string;               (* document.location.href *)
  static_url : string;         (* the global static_url *)
  tab : string;                (* getParam('tab') *)
  ask : string;                (* $('.activity_type_selector input:checked').val() *)
  what : string;               (* $('#status [name=what]').val() *)
  csrfmiddlewaretoken : string;
  maxlen : option nat          (* $('#textarea').data('maxlen'); [None] is undefined *)
}.

(** [var lskey = 'activity_' + document.location.href] *)
Definition lskey (pg : page) : string := "activity_" +:+ href pg.

(** [#thumbnail] and its children. *)
Record thumbnail : Type := Thumbnail {
  thumbnail_shown : bool;
  thumbnail_title : string;
  thumbnail_provider : string;
  thumbnail_desc : string;
  thumbnail_img : string;          (* the src attribute of #thumbnail-img *)
  thumbnail_img_padded : bool;     (* the classes py-2 px-4 *)
  thumbnail_img_width : option string
}.

(** [#preview] and [#preview-img]. *)
Record preview : Type := Preview {
  preview_shown : bool;
  preview_img : string
}.

(** A child of [#textarea-dropdown]: a row for a user, or bare text. *)
Inductive dropdown_child : Type :=
| UserRow (img_src handle : string)
| Text (s : string).

Record dropdown : Type := Dropdown {
  dropdown_children : list dropdown_child;
  dropdown_show : bool
}.

(** [#char_count] *)
Record counter : Type := Counter {
  counter_hidden : bool;
  counter_text : string
}.

(** The mutable state: the variable [embedded_resource], [localStorage] and
    the DOM nodes the handlers write.  The variable is a string here, as
    after every assignment of the script but the one of [selectGif] when
    jQuery has made something else of the [data-src] (see [js_value]). *)
Record state : Type := State {
  embedded_resource : string;
  localStorage : gmap string string;
  textarea : string;                          (* $('#textarea').val() *)
  textarea_red : bool;
  textarea_focus : bool;                      (* $('#textarea').is(':focus') *)
  btn_post_disabled : bool;
  char_count : option counter;                (* [None]: no such element *)
  thumb : thumbnail;
  prev : preview;
  menu : dropdown;
  poll_container : option (list (string * string));   (* its inputs: name, value *)
  video_container : option string;            (* its data-gfx *)
  activities : option (string * string)       (* .tab-section.active .activities: page, html *)
}.

Definition set_embedded_resource (v : string) (s : state) : state :=
  State v (localStorage s) (textarea s) (textarea_red s) (textarea_focus s)
        (btn_post_disabled s) (char_count s) (thumb s) (prev s) (menu s)
        (poll_container s) (video_container s) (activities s).

Definition setItem (k v : string) (s : state) : state :=
  State (embedded_resource s) (<[k := v]> (localStorage s)) (textarea s) (textarea_red s)
        (textarea_focus s) (btn_post_disabled s) (char_count s) (thumb s) (prev s) (menu s)
        (poll_container s) (video_container s) (activities s).

Definition set_textarea (v : string) (s : state) : state :=
  State (embedded_resource s) (localStorage s) v (textarea_red s) (textarea_focus s)
        (btn_post_disabled s) (char_count s) (thumb s) (prev s) (menu s)
        (poll_container s) (video_container s) (activities s).

Definition set_textarea_red (v : bool) (s : state) : state :=
  State (embedded_resource s) (localStorage s) (textarea s) v (textarea_focus s)
        (btn_post_disabled s) (char_count s) (thumb s) (prev s) (menu s)
        (poll_container s) (video_container s) (activities s).

Definition set_btn_post_disabled (v : bool) (s : state) : state :=
  State (embedded_resource s) (localStorage s) (textarea s) (textarea_red s) (textarea_focus s)
        v (char_count s) (thumb s) (prev s) (menu s)
        (poll_container s) (video_container s) (activities s).

Definition set_char_count (v : option counter) (s : state) : state :=
  State (embedded_resource s) (localStorage s) (textarea s) (textarea_red s) (textarea_focus s)
        (btn_post_disabled s) v (thumb s) (prev s) (menu s)
        (poll_container s) (video_container s) (activities s).

Definition set_thumb (v : thumbnail) (s : state) : state :=
  State (embedded_resource s) (localStorage s) (textarea s) (textarea_red s) (textarea_focus s)
        (btn_post_disabled s) (char_count s) v (prev s) (menu s)
        (poll_container s) (video_container s) (activities s).

Definition set_prev (v : preview) (s : state) : state :=
  State (embedded_resource s) (localStorage s) (textarea s) (textarea_red s) (textarea_focus s)
        (btn_post_disabled s) (char_count s) (thumb s) v (menu s)
        (poll_container s) (video_container s) (activities s).

Definition set_menu (v : dropdown) (s : state) : state :=
  State (embedded_resource s) (localStorage s) (textarea s) (textarea_red s) (textarea_focus s)
        (btn_post_disabled s) (char_count s) (thumb s) (prev s) v
        (poll_container s) (video_container s) (activities s).

Definition set_poll_container (v : option (list (string * string))) (s : state) : state :=
  State (embedded_resource s) (localStorage s) (textarea s) (textarea_red s) (textarea_focus s)
        (btn_post_disabled s) (char_count s) (thumb s) (prev s) (menu s)
        v (video_container s) (activities s).

Definition set_video_container (v : option string) (s : state) : state :=
  State (embedded_resource s) (localStorage s) (textarea s) (textarea_red s) (textarea_focus s)
        (btn_post_disabled s) (char_count s) (thumb s) (prev s) (menu s)
        (poll_container s) v (activities s).

Definition set_activities (v : option (string * string)) (s : state) : state :=
  State (embedded_resource s) (localStorage s) (textarea s) (textarea_red s) (textarea_focus s)
        (btn_post_disabled s) (char_count s) (thumb s) (prev s) (menu s)
        (poll_container s) (video_container s) v.

(** Writes to the children of [#thumbnail], [#preview] and the dropdown. *)
Definition thumbnail_show (b : bool) (s : state) : state :=
  let t := thumb s in
  set_thumb (Thumbnail b (thumbnail_title t) (thumbnail_provider t) (thumbnail_desc t)
                       (thumbnail_img t) (thumbnail_img_padded t) (thumbnail_img_width t)) s.

Definition thumbnail_title_text (v : string) (s : state) : state :=
  let t := thumb s in
  set_thumb (Thumbnail (thumbnail_shown t) v (thumbnail_provider t) (thumbnail_desc t)
                       (thumbnail_img t) (thumbnail_img_padded t) (thumbnail_img_width t)) s.

Definition thumbnail_provider_text (v : string) (s : state) : state :=
  let t := thumb s in
  set_thumb (Thumbnail (thumbnail_shown t) (thumbnail_title t) v (thumbnail_desc t)
                       (thumbnail_img t) (thumbnail_img_padded t) (thumbnail_img_width t)) s.

Definition thumbnail_desc_text (v : string) (s : state) : state :=
  let t := thumb s in
  set_thumb (Thumbnail (thumbnail_shown t) (thumbnail_title t) (thumbnail_provider t) v
                       (thumbnail_img t) (thumbnail_img_padded t) (thumbnail_img_width t)) s.

Definition thumbnail_img_src (v : string) (s : state) : state :=
  let t := thumb s in
  set_thumb (Thumbnail (thumbnail_shown t) (thumbnail_title t) (thumbnail_provider t)
                       (thumbnail_desc t) v (thumbnail_img_padded t) (thumbnail_img_width t)) s.

Definition thumbnail_img_style (padded : bool) (width : string) (s : state) : state :=
  let t := thumb s in
  set_thumb (Thumbnail (thumbnail_shown t) (thumbnail_title t) (thumbnail_provider t)
                       (thumbnail_desc t) (thumbnail_img t) padded (Some width)) s.

Definition preview_show (b : bool) (s : state) : state :=
  set_prev (Preview b (preview_img (prev s))) s.

Definition preview_img_src (v : string) (s : state) : state :=
  set_prev (Preview (preview_shown (prev s)) v) s.

Definition dropdown_set_show (b : bool) (s : state) : state :=
  set_menu (Dropdown (dropdown_children (menu s)) b) s.

Definition dropdown_set_children (l : list dropdown_child) (s : state) : state :=
  set_menu (Dropdown l (dropdown_show (menu s))) s.

(** ** Effects

    A handler returns the new state and what it asked the outside world to
    do, in order.  A request carries the callback the source attaches to
    it, as data: the variables the closure captured. *)

Inductive callback : Type :=
| VideoData (videoId matched : string)     (* the [then] of getVideoData *)
| Metadata (url : string)                  (* the [then] of getMetadata *)
| Users (lastWord usernameFilter : string) (* the [then] of getUsers *)
| Submitted (the_message : string).        (* the [then] and [catch] of the fetch *)

(** The first argument of [_alert]: a bare string, or [{message: gettext(s)}]. *)
Inductive notice : Type :=
| Plain (s : string)
| Translated (s : string).

Inductive task : Type :=
| HideDropdown.

Inductive effect : Type :=
| PreventDefault                                                  (* e.preventDefault() *)
| FetchData (url : string) (method : option string) (k : callback) (* fetchData, $.when().then *)
| Fetch (url method : string) (body : list (string * string)) (k : callback)   (* fetch *)
| Alert (msg : notice) (kind : string) (ms : option nat)          (* _alert *)
| SetTimeout (t : task) (ms : nat)                                (* window.setTimeout *)
| RunLongPoller.                                                  (* document.run_long_poller(false) *)

(** A request to the network, of either kind. *)
Definition is_request (e : effect) : bool :=
  match e with
  | FetchData _ _ _ | Fetch _ _ _ _ => true
  | _ => false
  end.

(** A lookup of preview metadata: a request answered by [VideoData] or
    [Metadata]. *)
Definition is_metadata_fetch (e : effect) : bool :=
  match e with
  | FetchData _ _ (VideoData _ _) | FetchData _ _ (Metadata _) => true
  | _ => false
  end.

(** What the servers answer. *)
Record meta : Type := Meta {
  meta_title : string;
  meta_description : option string;     (* [None]: the field is missing *)
  meta_image : string;                  (* falsy when empty *)
  meta_link : string
}.

Record profile : Type := Profile {
  avatar_url : string;                  (* falsy when empty *)
  handle : string
}.

Inductive outcome : Type :=
| Status (code : nat)                   (* the promise resolved: response.status *)
| NetworkError.                         (* the promise rejected *)

(** [typeof embedded_resource === 'string' && embedded_resource.match(giphy_re)]
    on the string a [state] holds, where the first test is true; [gif_test]
    is the test on any value. *)
Definition gif_locked (s : state) : bool :=
  match match_ giphy_re (embedded_resource s) with
  | Some _ => true
  | None => false
  end.

(** ** The handlers *)

(** [function selectGif(e)], with [src] the string that
    [$(e.target).data('src')] returns.  (jQuery returns the attribute as it
    is unless it reads as [true], [false], [null], a number or JSON; what it
    returns then is no string, and the click leaves the variable outside
    what a [state] holds.) *)
Definition selectGif (src : string) (s : state) : state :=
  thumbnail_show false (preview_show true (preview_img_src src (set_embedded_resource src s))).

(** [$('#textarea, #btn_post').click(...)] *)
Definition login_guard (pg : page) : list effect :=
  if negb (JsString.truthy (github_handle pg))
  then [PreventDefault; Alert (Plain "Please login first.") "error" None]
  else [].

(** An [input] event on the text box: [e.target.value] and
    [e.originalEvent.inputType]. *)
Record input_event : Type := InputEvent {
  value : string;
  inputType : string
}.

(** The [else] branch of the preview chain (lines 155 to 161). *)
Definition no_embed (no_lb : bool) (s : state) : state :=
  let s := thumbnail_desc_text "" s in
  if no_lb then thumbnail_show false (set_embedded_resource "" s) else s.

(** The [else if (site && site.length > 1 && no_lb)] branch and the [else]
    after it. *)
Definition link_or_none (e : input_event) (no_lb : bool) (s : state) : state * list effect :=
  match match_ url_re (value e) with
  | Some site =>
      if (1 <? array_length url_re) && no_lb
      then let url := whole site in
           (s, [FetchData ("service/metadata/?url=" +:+ url) None (Metadata url)])
      else (no_embed no_lb s, [])
  | None => (no_embed no_lb s, [])
  end.

(** The preview chain of the [input] handler (lines 98 to 161).  [None] is
    a TypeError: an [undefined] [youtube[1]] would make [.length] throw
    ([youtube_re_group1] shows the pattern never leaves it undefined). *)
Definition preview_chain (pg : page) (e : input_event) (s : state)
    : option (state * list effect) :=
  let no_lb := negb (String.eqb (inputType e) "insertLineBreak") in
  match match_ youtube_re (value e) with
  | Some youtube =>
      match group 1 youtube with
      | Some videoId =>
          if (JsString.len videoId =? 11) && no_lb
          then
            if negb (String.eqb (embedded_resource s) (whole youtube))
            then Some (s, [FetchData
                        ("https://www.googleapis.com/youtube/v3/videos?key=" +:+ youtube_key pg
                         +:+ "&fields=items(snippet(title))&part=snippet&id=" +:+ videoId)
                        None (VideoData videoId (whole youtube))])
            else Some (s, [])
          else Some (link_or_none e no_lb s)
      | None => None
      end
  | None => Some (link_or_none e no_lb s)
  end.

(** The mention part of the [input] handler (lines 163 to 208). *)
Definition mention (e : input_event) (s : state) : state * list effect :=
  let lastWord := JsString.pop (JsString.split_space (value e)) in
  if JsString.startsWith "@" lastWord
  then
    let usernameFilter := JsString.slice1 lastWord in
    if 2 <? JsString.len usernameFilter
    then (s, [FetchData ("/api/v0.1/users_fetch/?search=" +:+ usernameFilter) (Some "GET")
                        (Users lastWord usernameFilter)])
    else (s, [])
  else (dropdown_set_show false s, []).

(** [$('#textarea').on('input', ...)]; an exception ends the handler where
    it is thrown. *)
Definition textarea_input (pg : page) (e : input_event) (s : state) : state * list effect :=
  if gif_locked s then (s, [PreventDefault])
  else
    match preview_chain pg e s with
    | Some (s1, fx1) =>
        let '(s2, fx2) := mention e s1 in
        (s2, PreventDefault :: fx1 ++ fx2)
    | None => (s, [PreventDefault])
    end.

(** The [then] of [getVideoData]: [items] are the titles
    [response.items[i].snippet.title]. *)
Definition on_video_data (videoId matched : string) (items : list string) (s : state) : state :=
  match items with
  | title :: _ =>
      let s := thumbnail_title_text title s in
      let s := thumbnail_provider_text "Youtube" s in
      let s := thumbnail_img_src ("https://img.youtube.com/vi/" +:+ videoId +:+ "/default.jpg") s in
      let s := set_embedded_resource matched s in
      let s := thumbnail_show true s in
      preview_show false s
  | [] =>
      let s := thumbnail_show false s in
      let s := thumbnail_desc_text "" s in
      set_embedded_resource "" s
  end.

(** [const desc = ...] of the [then] of [getMetadata]; [None] is
    [undefined]. *)
Definition desc (description : option string) : option string :=
  match description with
  | Some d =>
      if JsString.truthy d && (200 <? JsString.len d)
      then Some (JsString.substr0 200 d +:+ "...")
      else Some d
  | None => None
  end.

(** [$(sel).text(v)]: jQuery reads [text(undefined)] as a getter and writes
    nothing. *)
Definition text_opt (set : string -> state -> state) (v : option string) (s : state) : state :=
  match v with
  | Some v => set v s
  | None => s
  end.

(** The [then] of [getMetadata]; a falsy response is [None]. *)
Definition on_metadata (url : string) (response : option meta) (s : state) : state :=
  match response with
  | Some r =>
      let s := thumbnail_title_text (meta_title r) s in
      let s := thumbnail_provider_text (meta_link r) s in
      let s := text_opt thumbnail_desc_text (desc (meta_description r)) s in
      let s :=
        if JsString.truthy (meta_image r)
        then thumbnail_img_style false "130%" (thumbnail_img_src (meta_image r) s)
        else thumbnail_img_src
               "https://s.gitcoin.co/static/v2/images/team/gitcoinbot.c1e81ab42f13.png"
               (thumbnail_img_style true "8rem" s) in
      let s := set_embedded_resource url s in
      let s := thumbnail_show true s in
      preview_show false s
  | None =>
      let s := thumbnail_show false s in
      let s := thumbnail_desc_text "" s in
      set_embedded_resource "" s
  end.

(** The [then] of [getUsers]: [data] is [response.data].  The click handler
    each row gets is not modelled. *)
Definition on_users (pg : page) (lastWord usernameFilter : string)
    (data : option (list profile)) (s : state) : state :=
  let row (p : profile) :=
    UserRow (if JsString.truthy (avatar_url p) then avatar_url p
             else static_url pg +:+ "v2/images/user-placeholder.png")
            (handle p) in
  let children :=
    match data with
    | Some (p :: ps) => map row (p :: ps)
    | Some [] | None => [Text ("No username matching '" +:+ usernameFilter +:+ "'")]
    end in
  dropdown_set_show true (dropdown_set_children children s).

(** [$('#textarea').focusout(...)] and the task it schedules. *)
Definition textarea_focusout : list effect := [SetTimeout HideDropdown 100].

Definition run_task (t : task) (s : state) : state :=
  match t with
  | HideDropdown => dropdown_set_show false s
  end.

(** [function submitStatusUpdate()] up to the request, lines 312 to 387. *)

(** [$('#poll_container input[name=option' + i + ']').val()] *)
Fixpoint input_val (name : string) (inputs : list (string * string)) : option string :=
  match inputs with
  | [] => None
  | (n, v) :: rest => if String.eqb n name then Some v else input_val name rest
  end.

Definition poll_val (i : nat) (s : state) : option string :=
  match poll_container s with
  | Some inputs => input_val ("option" +:+ JsString.of_nat i) inputs
  | None => None
  end.

(** The body of the loop [for (let i = 0; i < 5; i++)]. *)
Definition poll_field (s : state) (i : nat) : list (string * string) :=
  match poll_val i s with
  | Some val => if JsString.truthy val then [("option" +:+ JsString.of_nat i, val)] else []
  | None => []
  end.

(** Lines 337 to 363: what [embedded_resource] adds to the form. *)
Definition resource_fields (s : state) : list (string * string) :=
  if JsString.truthy (embedded_resource s)
  then
    let title := thumbnail_title (thumb s) in
    let link := thumbnail_provider (thumb s) in
    let description := thumbnail_desc (thumb s) in
    let image := thumbnail_img (thumb s) in
    let youtube := match_ youtube_re (embedded_resource s) in
    let content :=
      [("resource", "content"); ("resourceProvider", link);
       ("resourceId", embedded_resource s);
       ("title", title); ("description", description); ("image", image)] in
    match match_ giphy_re (embedded_resource s) with
    | Some _ =>
        [("resource", "gif"); ("resourceProvider", "giphy");
         ("resourceId", embedded_resource s)]
    | None =>
        match youtube with
        | Some y =>
            match group 1 y with
            | Some id =>
                if JsString.len id =? 11
                then [("resource", "video"); ("resourceProvider", "youtube");
                      ("resourceId", id);
                      ("title", title); ("description", description); ("image", image)]
                else content
            | None => content
            end
        | None => content
        end
    end
  else [].

(** The form as it is when the request leaves. *)
Definition form_data (pg : page) (s : state) : list (string * string) :=
  [("ask", ask pg); ("data", JsString.trim (textarea s));
   ("what", what pg); ("tab", tab pg)]
  ++ match video_container s with
     | Some gfx => [("has_video", "1"); ("video_gfx", gfx)]
     | None => []
     end
  ++ [("csrfmiddlewaretoken", csrfmiddlewaretoken pg)]
  ++ resource_fields s
  ++ flat_map (poll_field s) [0; 1; 2; 3; 4].

Definition submitStatusUpdate (pg : page) (s : state) : state * list effect :=
  if btn_post_disabled s then (s, [])
  else
    let the_message := JsString.trim (textarea s) in
    let data := form_data pg s in
    let s' := set_textarea "" s in
    let s' := setItem (lskey pg) "" s' in
    let s' := set_poll_container None s' in
    let s' := set_video_container None s' in
    (s', [Fetch "/api/v0.1/activity" "post" data (Submitted the_message)]).

(** [var fail_callback = function() {...}] *)
Definition fail_callback (pg : page) (the_message : string) (s : state) : state * list effect :=
  let s := set_textarea the_message s in
  let s := setItem (lskey pg) the_message s in
  (s, [Alert (Translated "An error occurred. Please try again.") "error" None]).

(** The [if (response.status === 200)] branch of the [then]. *)
Definition saved (s : state) : state * list effect :=
  let s := thumbnail_show false s in
  let s := thumbnail_title_text "" s in
  let s := thumbnail_provider_text "" s in
  let s := thumbnail_desc_text "" s in
  let s := thumbnail_img_src "" s in
  let s := preview_show false s in
  let s := preview_img_src "" s in
  let s := set_embedded_resource "" s in
  let notice := Alert (Translated "Status has been saved.") "success" (Some 1000) in
  match activities s with
  | None => (s, [notice; RunLongPoller])
  | Some _ => (set_textarea "" (set_activities (Some ("0", "")) s), [notice])
  end.

(** The [then] and the [catch] of the submission (lines 388 to 418). *)
Definition on_submitted (pg : page) (the_message : string) (o : outcome) (s : state)
    : state * list effect :=
  match o with
  | Status code => if code =? 200 then saved s else fail_callback pg the_message s
  | NetworkError => fail_callback pg the_message s
  end.

(** A keystroke-class event on the text box: [e.shiftKey] and [e.keyCode]
    ([None] when the event has none). *)
Record key_event : Type := KeyEvent {
  shiftKey : bool;
  keyCode : option nat
}.

(** [var update_max_len = function() {...}]; a comparison with [undefined]
    is false. *)
Definition update_max_len (pg : page) (len : nat) (s : state) : state :=
  match char_count s with
  | Some _ =>
      let hidden := match maxlen pg with Some m => len <? m | None => false end in
      let shown_max := match maxlen pg with Some m => JsString.of_nat m | None => "undefined" end in
      set_char_count (Some (Counter hidden (JsString.of_nat len +:+ "/" +:+ shown_max))) s
  | None => s
  end.

(** [$('body').on('focus change paste keydown keyup blur', '#textarea', ...)] *)
Definition textarea_keys (pg : page) (e : key_event) (s : state) : state * list effect :=
  let len := JsString.len (JsString.trim (textarea s)) in
  let s := update_max_len pg len s in
  let s := setItem (lskey pg) (textarea s) s in
  if match maxlen pg with Some m => m <? len | None => false end
  then (set_btn_post_disabled true (set_textarea_red true s), [])
  else if 4 <? len
  then
    let s := set_btn_post_disabled false s in
    let s := set_textarea_red false s in
    if textarea_focus s && negb (shiftKey e)
       && match keyCode e with Some k => k =? 13 | None => false end
    then let '(s, fx) := submitStatusUpdate pg s in (s, fx ++ [PreventDefault])
    else (s, [])
  else (set_btn_post_disabled true s, []).

(** A click on [#textarea], and one delivered to [#btn_post] (a disabled
    button receives none): the listener of lines 59 to 67 was added first
    and runs first. *)
Definition click_textarea (pg : page) (s : state) : state * list effect :=
  (s, login_guard pg).

Definition click_btn_post (pg : page) (s : state) : state * list effect :=
  let '(s, fx) := submitStatusUpdate pg s in
  (s, fx ++ login_guard pg).

(** ** The words of the specification

    What the statements below are written with: the shapes of a submission,
    the last token of a text, the requests by name. *)

(** A submission failed: any status but 200, or no answer at all. *)
Definition failed (o : outcome) : bool :=
  match o with
  | Status code => negb (code =? 200)
  | NetworkError => true
  end.

(** The shapes the specification lists, each with the fields it carries. *)
Inductive shape : Type :=
| Gif (resourceId : string)
| Video (resourceId title description image : string)
| Content (resourceProvider resourceId title description image : string)
| Absent.

Definition shape_fields (sh : shape) : list (string * string) :=
  match sh with
  | Gif id =>
      [("resource", "gif"); ("resourceProvider", "giphy"); ("resourceId", id)]
  | Video id title description image =>
      [("resource", "video"); ("resourceProvider", "youtube"); ("resourceId", id);
       ("title", title); ("description", description); ("image", image)]
  | Content provider id title description image =>
      [("resource", "content"); ("resourceProvider", provider); ("resourceId", id);
       ("title", title); ("description", description); ("image", image)]
  | Absent => []
  end.

(** The values a [resource] field may take for a shape: one, or none. *)
Definition resource_tag (sh : shape) : list string :=
  match sh with
  | Gif _ => ["gif"]
  | Video _ _ _ _ => ["video"]
  | Content _ _ _ _ _ => ["content"]
  | Absent => []
  end.

(** The id of a match of the YouTube pattern with an 11-character id. *)
Definition youtube_id (text : string) : option string :=
  match match_ youtube_re text with
  | Some y =>
      match group 1 y with
      | Some id => if JsString.len id =? 11 then Some id else None
      | None => None
      end
  | None => None
  end.

(** The classification of [embedded_resource] in the words of the
    specification: the GIF pattern first, then the YouTube pattern, then
    anything not empty, and nothing for the empty string. *)
Definition spec_shape (s : state) : shape :=
  let title := thumbnail_title (thumb s) in
  let description := thumbnail_desc (thumb s) in
  let image := thumbnail_img (thumb s) in
  match match_ giphy_re (embedded_resource s) with
  | Some _ => Gif (embedded_resource s)
  | None =>
      match youtube_id (embedded_resource s) with
      | Some id => Video id title description image
      | None =>
          if JsString.truthy (embedded_resource s)
          then Content (thumbnail_provider (thumb s)) (embedded_resource s)
                       title description image
          else Absent
      end
  end.

Definition key_is (k : string) (kv : string * string) : bool := String.eqb (fst kv) k.

Definition is_shape_key (kv : string * string) : bool :=
  existsb (String.eqb (fst kv))
          ["resource"; "resourceProvider"; "resourceId"; "title"; "description"; "image"].

(** The [input] handler run on one event after the other. *)
Fixpoint inputs (pg : page) (es : list input_event) (s : state) : state * list effect :=
  match es with
  | [] => (s, [])
  | e :: es =>
      let '(s1, fx1) := textarea_input pg e s in
      let '(s2, fx2) := inputs pg es s1 in
      (s2, fx1 ++ fx2)
  end.

(** The request for the title of a video. *)
Definition video_lookup (pg : page) (id matched : string) : effect :=
  FetchData ("https://www.googleapis.com/youtube/v3/videos?key=" +:+ youtube_key pg
             +:+ "&fields=items(snippet(title))&part=snippet&id=" +:+ id)
            None (VideoData id matched).

(** What follows the last character of a string that satisfies [sep], if
    there is one. *)
Fixpoint after_last (sep : ascii -> bool) (s : string) : option string :=
  match s with
  | EmptyString => None
  | String c t =>
      match after_last sep t with
      | Some r => Some r
      | None => if sep c then Some t else None
      end
  end.

(** The last token of a text cut at the characters [sep]. *)
Definition last_token (sep : ascii -> bool) (s : string) : string :=
  match after_last sep s with
  | Some r => r
  | None => s
  end.

(** The request for the users whose name starts like the last word. *)
Definition user_lookup (lastWord : string) : effect :=
  FetchData ("/api/v0.1/users_fetch/?search=" +:+ JsString.slice1 lastWord) (Some "GET")
            (Users lastWord (JsString.slice1 lastWord)).

(** The rows a response fills the dropdown with. *)
Definition suggestions (pg : page) (usernameFilter : string) (data : option (list profile))
    : list dropdown_child :=
  match data with
  | Some (p :: ps) =>
      map (fun p => UserRow (if JsString.truthy (avatar_url p) then avatar_url p
                             else static_url pg +:+ "v2/images/user-placeholder.png")
                            (handle p))
          (p :: ps)
  | Some [] | None => [Text ("No username matching '" +:+ usernameFilter +:+ "'")]
  end.

Definition LF : string := String (ascii_of_nat 10) EmptyString.

(** ** Sample inputs *)

(** A page of the town square, nobody logged in. *)
Definition anonymous : page :=
  Page "" "KEY" "https://gitcoin.co/townsquare" "/static/" "everywhere" ""
       "status_update" "token" (Some 280).

Definition logged_in : page :=
  Page "zoek1" "KEY" "https://gitcoin.co/townsquare" "/static/" "everywhere" ""
       "status_update" "token" (Some 280).

(** The composer as it loads: nothing typed, nothing embedded, the post
    button still disabled. *)
Definition blank : state :=
  State "" ∅ "" false true true None
        (Thumbnail false "" "" "" "" false None) (Preview false "")
        (Dropdown [] false) None None None.

(** A draft ready to post, with a poll and a decoration open. *)
Definition draft : state :=
  set_poll_container (Some [("option1", "yes"); ("option2", "no");
                            ("option3", ""); ("option4", "")])
    (set_video_container (Some "video2.gif")
       (set_btn_post_disabled false (set_textarea " hello world " blank))).

Definition short_draft : state := set_textarea "abc" draft.

Definition giphy_src : string :=
  "https://media0.giphy.com/media/l0HlBO7eyXzSZkJri/giphy.webp".

(** The same draft after a click on a GIF of the grid. *)
Definition gif_draft : state := selectGif giphy_src draft.

Definition gif_selected : state := selectGif giphy_src blank.

(** The last keystroke of a YouTube link, and what the pattern finds. *)
Definition rickroll : input_event :=
  InputEvent "check this https://youtu.be/dQw4w9WgXcQ" "insertText".

Definition rickroll_found : found :=
  Found "https://youtu.be/dQw4w9WgXcQ" [(1, "dQw4w9WgXcQ")].

(** One more keystroke once the link is embedded. *)
Definition rickroll_again : input_event :=
  InputEvent "check this https://youtu.be/dQw4w9WgXcQ !" "insertText".

Definition rickroll_embedded : state :=
  set_embedded_resource "https://youtu.be/dQw4w9WgXcQ" blank.

(** A keystroke in a text whose link is embedded already. *)
Definition grants : input_event := InputEvent "see https://gitcoin.co/grants !" "insertText".

Definition grants_embedded : state := set_embedded_resource "https://gitcoin.co/grants" blank.

Definition gitcoin_meta : meta := Meta "Gitcoin" (Some "Grow open source") "" "gitcoin.co".

Definition two_edits : list input_event :=
  [InputEvent "look https://gitcoin.co" "insertText";
   InputEvent "look https://youtu.be/dQw4w9WgXcQ" "insertText"].

(** A mention after a line break, and one after a space. *)
Definition mention_after_break : input_event :=
  InputEvent ("hello" +:+ LF +:+ "@bob") "insertText".

Definition mention_after_space : input_event := InputEvent "hi @bob" "insertText".

Definition enter : key_event := KeyEvent false (Some 13).

(** A text typed into the composer as it loaded, the box focused. *)
Definition typed : state := set_textarea "hello world" blank.

(** ** More of the script

    The handlers no statement above needed, and the predicates the further
    properties are written with. *)

(** [u] lies in [s], in one piece. *)
Definition piece (u s : string) : Prop := exists pre post, s = pre +:+ u +:+ post.

Fixpoint mem_char (c : ascii) (s : string) : bool :=
  match s with
  | EmptyString => false
  | String d t => Ascii.eqb c d || mem_char c t
  end.

Fixpoint all_chars (P : ascii -> bool) (s : string) : bool :=
  match s with
  | EmptyString => true
  | String c t => P c && all_chars P t
  end.


Fixpoint last_char (s : string) : option ascii :=
  match s with
  | EmptyString => None
  | String c EmptyString => Some c
  | String _ t => last_char t
  end.

Definition space_opt (c : option ascii) : bool :=
  match c with
  | Some c => JsString.is_space c
  | None => false
  end.

(** No white space at either end. *)
Definition edges_clean (s : string) : bool :=
  negb (space_opt (next_char s)) && negb (space_opt (last_char s)).

(** The draft entry of the cache holds what the text box shows. *)
Definition cache_in_sync (pg : page) (s : state) : Prop :=
  localStorage s !! lskey pg = Some (textarea s).

(** Lines 77 to 83, run as the page loads: the cached draft, when there is
    one and it is not empty, goes into the text box. *)
Definition restore_draft (pg : page) (s : state) : state :=
  match localStorage s !! lskey pg with
  | Some current_ls_activity =>
      if JsString.truthy current_ls_activity then set_textarea current_ls_activity s else s
  | None => s
  end.

(** A page load after [old]: the DOM as the server renders it ([fresh]), the
    variable [embedded_resource] at its initial [''], the storage of the
    browser as [old] left it. *)
Definition reload (pg : page) (fresh old : state) : state :=
  restore_draft pg
    (State "" (localStorage old) (textarea fresh) (textarea_red fresh) (textarea_focus fresh)
           (btn_post_disabled fresh) (char_count fresh) (thumb fresh) (prev fresh)
           (menu fresh) (poll_container fresh) (video_container fresh) (activities fresh)).

(** The class [selected] of [#poll-button] and of [#video-button]. *)
Record toolbar : Type := Toolbar {
  poll_selected : bool;
  video_selected : bool
}.

(** The four inputs of the container the poll button inserts. *)
Definition fresh_poll : list (string * string) :=
  [("option1", ""); ("option2", ""); ("option3", ""); ("option4", "")].

(** [$('body').on('click', '#poll-button', ...)], lines 223 to 244.  The
    container is inserted only when the button was not selected, and then
    there is none yet ([poll_open_selected]).  The focus it gives to the
    first option reaches the text box as a [blur], an event of its own. *)
Definition poll_button_click (t : toolbar) (s : state) : toolbar * state :=
  let is_selected := negb (poll_selected t) in
  (Toolbar is_selected (video_selected t),
   if is_selected then set_poll_container (Some fresh_poll) s
   else set_poll_container None s).


(** The user types [v] into the input [name] of the poll. *)
Fixpoint set_input (name v : string) (inputs : list (string * string))
    : list (string * string) :=
  match inputs with
  | [] => []
  | (n, old) :: rest =>
      if String.eqb n name then (n, v) :: rest else (n, old) :: set_input name v rest
  end.

(** [len] is not over the configured maximum (no maximum: never over). *)
Definition within_max (pg : page) (len : nat) : bool :=
  match maxlen pg with
  | Some m => negb (m <? len)
  | None => true
  end.

(** The keystroke is Enter, without shift, in the focused text box. *)
Definition is_enter (e : key_event) (s : state) : bool :=
  textarea_focus s && negb (shiftKey e)
  && match keyCode e with Some k => k =? 13 | None => false end.

(** The state the keystroke handler has built when it branches on the
    length: the counter written, the draft cached. *)
Definition counted (pg : page) (s : state) : state :=
  let s := update_max_len pg (JsString.len (JsString.trim (textarea s))) s in
  setItem (lskey pg) (textarea s) s.

(** An open poll goes with a selected button. *)
Definition poll_open_selected (t : toolbar) (s : state) : Prop :=
  poll_container s <> None -> poll_selected t = true.

(** A pattern without look-ahead and without [\b]: what it does at a place
    depends on the text ahead only as far as it reads it. *)
Fixpoint plain (r : regex) : bool :=
  match r with
  | Str _ | One _ | Rep _ _ _ => true
  | Seq r1 r2 | Alt r1 r2 => plain r1 && plain r2
  | Opt r | Group _ r => plain r
  | NotAhead _ | WordB => false
  end.

(** The runs over a text set against the runs over the same text followed
    by [post]: each run over the longer text either stops in [post] (and has
    no counterpart) or is, in the same order, a run over the shorter one. *)
Inductive cut (post : string) : list pos -> list pos -> Prop :=
| cut_nil : cut post [] []
| cut_keep (ql qs : pos) (l s : list pos) :
    ahead ql = ahead qs +:+ post -> caps ql = caps qs ->
    cut post l s -> cut post (ql :: l) (qs :: s)
| cut_drop (ql : pos) (l s : list pos) :
    String.length (ahead ql) < String.length post ->
    cut post l s -> cut post (ql :: l) s.

(** [youtube_re] without its closing look-ahead. *)
Definition youtube_body : regex :=
  Seq (Opt (Alt scheme (Str "//")))
 (Seq (Opt (Alt (Str "www.") (Str "m.")))
 (Seq (Alt (Str "youtu.be/")
           (Seq (Str "youtube.com/")
                (Alt (Str "embed/")
                (Alt (Str "v/")
                (Alt (Str "watch?v=")
                     (Seq (Str "watch?") (Seq (Rep Dot 1 None) (Str "&v="))))))))
      (Group 1 (Rep (Class [CWord; CChar "-"]) 11 (Some 11))))).

(** The look-ahead [(?![\w-])] lets a place pass: no character of an id
    comes next. *)
Definition id_ends (s : string) : bool :=
  match s with
  | EmptyString => true
  | String c _ => negb (atom_mem (Class [CWord; CChar "-"]) c)
  end.

(** The draft typed and cached, no key pressed yet. *)
Definition cached : state := fst (textarea_keys anonymous (KeyEvent false None) typed).

(** Both buttons selected, as with [draft]. *)
Definition both_on : toolbar := Toolbar true true.

(** A value of [embedded_resource], or one a [.data()] call returns: a
    string, or something else (a number, a boolean, [null], an object, an
    array). *)
Inductive js_value : Type :=
| JsText (s : string)
| JsOther.

(** Line 94 on any value of the variable: what is no string fails the
    [typeof] test. *)
Definition gif_test (v : js_value) : bool :=
  match v with
  | JsText s =>
      match match_ giphy_re s with
      | Some _ => true
      | None => false
      end
  | JsOther => false
  end.

(** * Properties *)

(** ** The matcher *)

Section Matcher.

Lemma length_append (a b : string) :
  String.length (a +:+ b) = String.length a + String.length b.
Proof. induction a as [|c a IH]; simpl; [reflexivity | now rewrite IH]. Qed.

Lemma substring_append (a b : string) :
  String.substring 0 (String.length a) (a +:+ b) = a.
Proof. induction a as [|c a IH]; simpl; [now destruct b | now rewrite IH]. Qed.

(** What lies between a position and a later one of the same text. *)
Lemma consumed_append (a b : string) : consumed (a +:+ b) b = a.
Proof.
  unfold consumed. rewrite length_append.
  replace (String.length a + String.length b - String.length b)
    with (String.length a) by lia.
  apply substring_append.
Qed.

(** A run of [a{lo,hi}] leaves the captures alone and eats between [lo] and
    [hi] characters. *)
Lemma rep_spec (a : atom) (s : string) :
  forall lo hi b cs q,
    In q (rep a lo hi b s cs) ->
    caps q = cs /\
    exists taken, s = taken +:+ ahead q /\ lo <= String.length taken /\
                  (forall n, hi = Some n -> String.length taken <= n).
Proof.
  induction s as [|c s IH]; intros lo hi b cs q Hq.
  - simpl in Hq. destruct (Nat.eqb_spec lo 0) as [->|]; [|contradiction].
    destruct Hq as [<-|[]]. split; [reflexivity|]. exists EmptyString.
    repeat split; simpl; lia.
  - assert (Hstop : In q (if lo =? 0 then [Pos b (String c s) cs] else []) ->
                    caps q = cs /\
                    exists taken, String c s = taken +:+ ahead q /\
                                  lo <= String.length taken /\
                                  (forall n, hi = Some n -> String.length taken <= n)).
    { destruct (Nat.eqb_spec lo 0) as [->|]; [|contradiction].
      intros [<-|[]]. split; [reflexivity|]. exists EmptyString.
      repeat split; simpl; lia. }
    simpl in Hq. destruct (more hi && atom_mem a c) eqn:Hgo; [|auto].
    apply in_app_or in Hq as [Hq|Hq]; [|auto].
    apply IH in Hq as [Hc (taken & Hs & Hlo & Hhi)].
    split; [assumption|]. exists (String c taken). repeat split.
    + rewrite Hs at 1. reflexivity.
    + simpl. lia.
    + intros n ->. apply andb_prop in Hgo as [Hmore _].
      destruct n as [|n]; [discriminate|].
      specialize (Hhi n eq_refl). simpl. lia.
Qed.

Lemma run_Seq (r1 r2 : regex) (p q : pos) :
  In q (run (Seq r1 r2) p) <-> exists m, In m (run r1 p) /\ In q (run r2 m).
Proof. simpl. apply in_flat_map. Qed.

(** A captured [a{n,n}] has exactly [n] characters. *)
Lemma run_Group_Rep (i n : nat) (a : atom) (p q : pos) :
  In q (run (Group i (Rep a n (Some n))) p) ->
  exists id, cap i (caps q) = Some id /\ String.length id = n.
Proof.
  simpl. rewrite in_map_iff. intros (q0 & <- & Hq0).
  apply rep_spec in Hq0 as [_ (taken & Hs & Hlo & Hhi)].
  exists taken. simpl. rewrite Nat.eqb_refl, Hs, consumed_append.
  split; [reflexivity|]. specialize (Hhi n eq_refl). lia.
Qed.

Lemma run_NotAhead (r : regex) (p q : pos) : In q (run (NotAhead r) p) -> q = p.
Proof. simpl. destruct (run r p); [intros [<-|[]]; reflexivity | contradiction]. Qed.

(** Whatever [search] finds is the best run from some position. *)
Lemma search_run (r : regex) (s : string) :
  forall b y, search r b s = Some y ->
    exists p q, In q (run r p) /\ groups y = caps q.
Proof.
  induction s as [|c s IH]; intros b y; simpl.
  - destruct (run r (Pos b "" [])) as [|q l] eqn:E; [discriminate|].
    intros [= <-]. exists (Pos b "" []), q. rewrite E. simpl. auto.
  - destruct (run r (Pos b (String c s) [])) as [|q l] eqn:E.
    + apply IH.
    + intros [= <-]. exists (Pos b (String c s) []), q. rewrite E. simpl. auto.
Qed.

(** [youtube[1]] is never [undefined], and always 11 characters long. *)
Lemma youtube_re_group1 (s : string) (y : found) :
  match_ youtube_re s = Some y ->
  exists id, group 1 y = Some id /\ String.length id = 11.
Proof.
  intros H. apply search_run in H as (p & q & Hq & Hg).
  unfold youtube_re in Hq.
  apply run_Seq in Hq as (p1 & _ & Hq).
  apply run_Seq in Hq as (p2 & _ & Hq).
  apply run_Seq in Hq as (p3 & _ & Hq).
  apply run_Seq in Hq as (p4 & Hid & Hq).
  apply run_NotAhead in Hq as ->.
  unfold group. rewrite Hg. now apply run_Group_Rep in Hid.
Qed.

(** A found array has at least its element 0: [site.length > 1] holds for
    every match of [url_re]. *)
Lemma url_re_length : (1 <? array_length url_re) = true.
Proof. reflexivity. Qed.

End Matcher.

(** ** Submitting *)

Section Submission.

Variable pg : page.

Lemma submit_enabled (s : state) :
  btn_post_disabled s = false ->
  submitStatusUpdate pg s =
    (set_video_container None
       (set_poll_container None (setItem (lskey pg) "" (set_textarea "" s))),
     [Fetch "/api/v0.1/activity" "post" (form_data pg s)
            (Submitted (JsString.trim (textarea s)))]).
Proof. intros H. unfold submitStatusUpdate. now rewrite H. Qed.

Lemma on_submitted_failed (m : string) (o : outcome) (s : state) :
  failed o = true -> on_submitted pg m o s = fail_callback pg m s.
Proof.
  destruct o as [code|]; simpl; [|reflexivity].
  destruct (code =? 200); [discriminate | reflexivity].
Qed.

(** [fail_callback] writes the text box and the draft entry, and nothing
    else. *)
Lemma fail_callback_frame (m : string) (s : state) :
  fst (fail_callback pg m s) =
    State (embedded_resource s) (<[lskey pg := m]> (localStorage s)) m
          (textarea_red s) (textarea_focus s) (btn_post_disabled s) (char_count s)
          (thumb s) (prev s) (menu s) (poll_container s) (video_container s)
          (activities s).
Proof. reflexivity. Qed.

End Submission.

(** C8. When the post button is disabled, [submitStatusUpdate] returns at
    once: no request leaves and the state, the draft cache with it, is what
    it was.  The button is disabled by the keystroke handler whenever the
    trimmed text has fewer than 5 characters or more than the configured
    maximum, and that handler then sends nothing either. *)
Theorem disabled_submit_does_nothing (pg : page) (s : state) :
  (btn_post_disabled s = true ->
   submitStatusUpdate pg s = (s, []) /\
   localStorage (fst (submitStatusUpdate pg s)) = localStorage s) /\
  (forall e : key_event,
     let len := JsString.len (JsString.trim (textarea s)) in
     len < 5 \/ (exists m, maxlen pg = Some m /\ m < len) ->
     btn_post_disabled (fst (textarea_keys pg e s)) = true /\
     snd (textarea_keys pg e s) = [] /\
     submitStatusUpdate pg (fst (textarea_keys pg e s)) = (fst (textarea_keys pg e s), [])).
Proof.
  split.
  - intros H. unfold submitStatusUpdate. rewrite H. split; reflexivity.
  - intros e len Hlen.
    assert (Hoff : btn_post_disabled (fst (textarea_keys pg e s)) = true /\
                   snd (textarea_keys pg e s) = []).
    { unfold textarea_keys. fold len.
      destruct (maxlen pg) as [m|] eqn:Hmax.
      - destruct (Nat.ltb_spec m len) as [Hm|Hm]; [split; reflexivity|].
        destruct Hlen as [Hlen|(m' & [= <-] & Hlen)]; [|lia].
        destruct (Nat.ltb_spec 4 len); [lia | split; reflexivity].
      - destruct Hlen as [Hlen|(m' & [=] & _)].
        destruct (Nat.ltb_spec 4 len); [lia | split; reflexivity]. }
    destruct Hoff as [Hoff Hfx]. repeat split; [assumption | assumption |].
    unfold submitStatusUpdate. now rewrite Hoff.
Qed.

Lemma disabled_submit_does_nothing_witness :
  btn_post_disabled blank = true /\
  JsString.len (JsString.trim (textarea short_draft)) < 5 /\
  submitStatusUpdate anonymous blank = (blank, []) /\
  snd (textarea_keys anonymous enter short_draft) = [].
Proof.
  pose proof (disabled_submit_does_nothing anonymous blank) as [Hsub _].
  pose proof (disabled_submit_does_nothing anonymous short_draft) as [_ Hkeys].
  assert (Hlen : JsString.len (JsString.trim (textarea short_draft)) < 5)
    by (vm_compute; lia).
  split; [reflexivity|]. split; [exact Hlen|]. split.
  - exact (proj1 (Hsub eq_refl)).
  - exact (proj1 (proj2 (Hkeys enter (or_introl Hlen)))).
Defined.

(** C3. A submission that ends in any status but 200, or in a network
    error, puts the trimmed message it took from the text box back there and
    into the draft entry of the cache, shows one error notice that does not
    time out, and sends nothing again; this whatever happened to the page
    while the request was under way. *)
Theorem failed_submit_restores (pg : page) (s : state) (o : outcome) :
  btn_post_disabled s = false ->
  failed o = true ->
  let the_message := JsString.trim (textarea s) in
  exists data,
    snd (submitStatusUpdate pg s) =
      [Fetch "/api/v0.1/activity" "post" data (Submitted the_message)] /\
    forall later : state,
      textarea (fst (on_submitted pg the_message o later)) = the_message /\
      localStorage (fst (on_submitted pg the_message o later)) !! lskey pg
        = Some the_message /\
      snd (on_submitted pg the_message o later) =
        [Alert (Translated "An error occurred. Please try again.") "error" None] /\
      Forall (fun e => is_request e = false) (snd (on_submitted pg the_message o later)).
Proof.
  intros Hon Hfail the_message. exists (form_data pg s). split.
  - now rewrite submit_enabled.
  - intros later. rewrite on_submitted_failed by assumption.
    repeat split.
    + simpl. apply lookup_insert_eq.
    + repeat constructor.
Qed.

Lemma failed_submit_restores_witness :
  btn_post_disabled draft = false /\
  failed (Status 500) = true /\
  textarea (fst (on_submitted anonymous "hello world" (Status 500)
                   (fst (submitStatusUpdate anonymous draft)))) = "hello world".
Proof.
  split; [reflexivity | split; [reflexivity |]].
  destruct (failed_submit_restores anonymous draft (Status 500) eq_refl eq_refl)
    as (data & _ & H).
  exact (proj1 (H (fst (submitStatusUpdate anonymous draft)))).
Defined.

(** C10. After a failed submission only the text box and the draft entry are
    put back.  [embedded_resource], the thumbnail panel and the GIF preview
    are as they were before the submission (only the 200 branch clears them);
    the poll and the decoration, removed before the request left, stay
    removed. *)
Theorem failed_submit_frame (pg : page) (s : state) (o : outcome) :
  btn_post_disabled s = false ->
  failed o = true ->
  let the_message := JsString.trim (textarea s) in
  let sent := fst (submitStatusUpdate pg s) in
  let after := fst (on_submitted pg the_message o sent) in
  poll_container sent = None /\ video_container sent = None /\
  after =
    State (embedded_resource s) (<[lskey pg := the_message]> (localStorage s)) the_message
          (textarea_red s) (textarea_focus s) (btn_post_disabled s) (char_count s)
          (thumb s) (prev s) (menu s) None None (activities s) /\
  (forall later : state,
     let s' := fst (on_submitted pg the_message o later) in
     embedded_resource s' = embedded_resource later /\
     thumb s' = thumb later /\ prev s' = prev later /\
     poll_container s' = poll_container later /\
     video_container s' = video_container later) /\
  (forall later : state,
     let s' := fst (on_submitted pg the_message (Status 200) later) in
     embedded_resource s' = "" /\ thumbnail_shown (thumb s') = false /\
     preview_shown (prev s') = false).
Proof.
  intros Hon Hfail the_message sent after. subst sent after.
  rewrite submit_enabled by assumption. cbn [fst].
  split; [reflexivity|]. split; [reflexivity|]. split; [|split].
  - rewrite on_submitted_failed by assumption.
    rewrite fail_callback_frame. simpl. now rewrite insert_insert_eq.
  - intros later. rewrite on_submitted_failed by assumption.
    repeat split.
  - intros later. simpl. unfold saved.
    destruct (activities _); repeat split.
Qed.

Lemma failed_submit_frame_witness :
  btn_post_disabled draft = false /\
  failed NetworkError = true /\
  poll_container (fst (on_submitted anonymous "hello world" NetworkError
                         (fst (submitStatusUpdate anonymous draft)))) = None.
Proof.
  split; [reflexivity | split; [reflexivity |]].
  destruct (failed_submit_frame anonymous draft NetworkError eq_refl eq_refl)
    as (_ & _ & H & _).
  change (JsString.trim (textarea draft)) with "hello world" in H.
  rewrite H. reflexivity.
Defined.

(** ** The preview of a link *)

Lemma substr0_prefix (n : nat) :
  forall d : string,
    n <= JsString.len d ->
    JsString.len (JsString.substr0 n d) = n /\
    exists rest, d = JsString.substr0 n d +:+ rest.
Proof.
  unfold JsString.len, JsString.substr0.
  induction n as [|n IH]; intros d Hn.
  - split; [now destruct d|]. exists d. now destruct d.
  - destruct d as [|c d]; simpl in Hn; [lia|].
    destruct (IH d ltac:(lia)) as [Hlen [rest Hrest]]. simpl. split.
    + now rewrite Hlen.
    + exists rest. rewrite Hrest at 1. reflexivity.
Qed.

Lemma on_metadata_desc (url : string) (r : meta) (s : state) :
  thumbnail_desc (thumb (on_metadata url (Some r) s)) =
    match desc (meta_description r) with
    | Some shown => shown
    | None => thumbnail_desc (thumb s)
    end.
Proof.
  unfold on_metadata, text_opt.
  destruct (desc (meta_description r)), (JsString.truthy (meta_image r)); reflexivity.
Qed.

(** C9. The description of a link-metadata response is displayed as its
    first 200 characters followed by the three characters [...] when it is
    longer than 200 characters, and as it is when it has 200 characters or
    fewer. *)
Theorem description_display (url : string) (r : meta) (d : string) (s : state) :
  meta_description r = Some d ->
  let shown := thumbnail_desc (thumb (on_metadata url (Some r) s)) in
  (200 < JsString.len d ->
     shown = JsString.substr0 200 d +:+ "..." /\
     JsString.len (JsString.substr0 200 d) = 200 /\
     (exists rest, d = JsString.substr0 200 d +:+ rest) /\
     JsString.len shown = 203) /\
  (JsString.len d <= 200 -> shown = d).
Proof.
  intros Hd shown. subst shown. rewrite on_metadata_desc, Hd. unfold desc. split.
  - intros Hlong.
    assert (Htruthy : JsString.truthy d = true) by (destruct d; [simpl in Hlong; lia | reflexivity]).
    rewrite Htruthy. destruct (Nat.ltb_spec 200 (JsString.len d)); [|lia].
    cbn [andb].
    destruct (substr0_prefix 200 d ltac:(lia)) as [Hlen Hrest].
    split; [reflexivity|]. split; [exact Hlen|]. split; [exact Hrest|].
    unfold JsString.len in *. rewrite length_append, Hlen. reflexivity.
  - intros Hshort. destruct (Nat.ltb_spec 200 (JsString.len d)); [lia|].
    now rewrite andb_false_r.
Qed.

Lemma description_display_witness :
  meta_description gitcoin_meta = Some "Grow open source" /\
  thumbnail_desc (thumb (on_metadata "https://gitcoin.co" (Some gitcoin_meta) blank))
    = "Grow open source".
Proof.
  split; [reflexivity|].
  apply (description_display "https://gitcoin.co" gitcoin_meta "Grow open source" blank
                             eq_refl).
  vm_compute. lia.
Defined.

(** ** The shape of a submission *)

Section Shape.

(** The code and the specification choose the same fields. *)
Lemma resource_fields_spec (s : state) : resource_fields s = shape_fields (spec_shape s).
Proof.
  unfold resource_fields, spec_shape, youtube_id.
  destruct (embedded_resource s) as [|c er].
  - reflexivity.
  - cbn [JsString.truthy].
    destruct (match_ giphy_re (String c er)); [reflexivity|].
    destruct (match_ youtube_re (String c er)) as [y|]; [|reflexivity].
    destruct (group 1 y) as [id|]; [|reflexivity].
    destruct (JsString.len id =? 11); reflexivity.
Qed.

Lemma shape_fields_keys (sh : shape) :
  List.filter is_shape_key (shape_fields sh) = shape_fields sh /\
  map snd (List.filter (key_is "resource") (shape_fields sh)) = resource_tag sh.
Proof. destruct sh; split; reflexivity. Qed.

(** A poll option is none of the shape's fields. *)
Lemma poll_field_plain (s : state) (i : nat) :
  List.filter is_shape_key (poll_field s i) = [] /\
  List.filter (key_is "resource") (poll_field s i) = [].
Proof.
  unfold poll_field. destruct (poll_val i s) as [val|]; [|split; reflexivity].
  destruct (JsString.truthy val); split; reflexivity.
Qed.

Lemma poll_fields_plain (s : state) (l : list nat) :
  List.filter is_shape_key (flat_map (poll_field s) l) = [] /\
  List.filter (key_is "resource") (flat_map (poll_field s) l) = [].
Proof.
  induction l as [|i l [IH1 IH2]]; [split; reflexivity|].
  simpl. rewrite !List.filter_app, IH1, IH2.
  destruct (poll_field_plain s i) as [-> ->]. split; reflexivity.
Qed.

(** In the whole form, the shape's fields are those [resource_fields]
    added. *)
Lemma form_data_shape (pg : page) (s : state) :
  List.filter is_shape_key (form_data pg s) = shape_fields (spec_shape s) /\
  map snd (List.filter (key_is "resource") (form_data pg s)) = resource_tag (spec_shape s).
Proof.
  unfold form_data. rewrite !List.filter_app.
  destruct (poll_fields_plain s [0; 1; 2; 3; 4]) as [-> ->].
  rewrite !app_nil_r, resource_fields_spec.
  destruct (shape_fields_keys (spec_shape s)) as [-> <-].
  destruct (video_container s); split; reflexivity.
Qed.

End Shape.

(** C1. Every submission [submitStatusUpdate] builds carries the resource
    fields of exactly one shape, or none: the GIF shape when
    [embedded_resource] matches the GIF pattern; else the video shape, with
    the 11-character id and the title, description and image of the preview
    panel, when it matches the YouTube pattern; else the content shape when
    it is not empty; and no resource field when it is empty.  The form never
    has two [resource] entries. *)
Theorem submission_shape (pg : page) (s : state) :
  btn_post_disabled s = false ->
  exists data,
    snd (submitStatusUpdate pg s) =
      [Fetch "/api/v0.1/activity" "post" data (Submitted (JsString.trim (textarea s)))] /\
    List.filter is_shape_key data = shape_fields (spec_shape s) /\
    map snd (List.filter (key_is "resource") data) = resource_tag (spec_shape s) /\
    length (List.filter (key_is "resource") data) <= 1.
Proof.
  intros Hon. exists (form_data pg s). rewrite submit_enabled by assumption.
  destruct (form_data_shape pg s) as [Hshape Htag].
  split; [reflexivity|]. split; [exact Hshape|]. split; [exact Htag|].
  rewrite <- (length_map snd), Htag. destruct (spec_shape s); simpl; lia.
Qed.

Lemma submission_shape_witness :
  btn_post_disabled gif_draft = false /\
  exists data,
    snd (submitStatusUpdate logged_in gif_draft) =
      [Fetch "/api/v0.1/activity" "post" data (Submitted "hello world")] /\
    List.filter is_shape_key data =
      [("resource", "gif"); ("resourceProvider", "giphy"); ("resourceId", giphy_src)].
Proof.
  split; [reflexivity|].
  destruct (submission_shape logged_in gif_draft eq_refl) as (data & Hfx & Hshape & _).
  exists data. split; [exact Hfx | exact Hshape].
Defined.

(** ** The input handler *)

Section Input.

Variable pg : page.

Lemma no_lb_true (e : input_event) :
  inputType e <> "insertLineBreak" ->
  negb (String.eqb (inputType e) "insertLineBreak") = true.
Proof. intros H. now destruct (String.eqb_spec (inputType e) "insertLineBreak"). Qed.

(** The mention part asks for users or for nothing, and writes nothing but
    the dropdown. *)
Lemma mention_spec (e : input_event) (s : state) :
  (fst (mention e s) = s \/ fst (mention e s) = dropdown_set_show false s) /\
  Forall (fun fx => exists url w f, fx = FetchData url (Some "GET") (Users w f))
         (snd (mention e s)).
Proof.
  unfold mention.
  destruct (JsString.startsWith _ _); [|split; [right; reflexivity | constructor]].
  destruct (2 <? _); (split; [left; reflexivity|]); repeat constructor.
  eauto.
Qed.

(** The preview chain does not throw, and leaves the dropdown alone. *)
Lemma preview_chain_total (e : input_event) (s : state) :
  exists s1 fx1, preview_chain pg e s = Some (s1, fx1) /\ menu s1 = menu s.
Proof.
  assert (Hlink : forall b, menu (fst (link_or_none e b s)) = menu s).
  { intros b. unfold link_or_none, no_embed.
    destruct (match_ url_re (value e)); [destruct (_ && b) eqn:E|]; destruct b;
      reflexivity. }
  unfold preview_chain.
  destruct (match_ youtube_re (value e)) as [y|] eqn:Hy.
  - destruct (youtube_re_group1 _ _ Hy) as (id & -> & _).
    destruct (_ && _).
    + destruct (negb _); eauto.
    + destruct (link_or_none e _ s) as [s1 fx1] eqn:E. exists s1, fx1.
      split; [reflexivity|]. specialize (Hlink (negb (String.eqb (inputType e) "insertLineBreak"))).
      now rewrite E in Hlink.
  - destruct (link_or_none e _ s) as [s1 fx1] eqn:E. exists s1, fx1.
    split; [reflexivity|]. specialize (Hlink (negb (String.eqb (inputType e) "insertLineBreak"))).
    now rewrite E in Hlink.
Qed.

(** The YouTube branch: what the chain does with a match of the pattern
    when the edit is not a line break. *)
Lemma preview_chain_youtube (e : input_event) (s : state) (y : found) (id : string) :
  match_ youtube_re (value e) = Some y ->
  group 1 y = Some id ->
  inputType e <> "insertLineBreak" ->
  preview_chain pg e s =
    Some (s, if String.eqb (embedded_resource s) (whole y) then []
             else [video_lookup pg id (whole y)]).
Proof.
  intros Hy Hid Hlb. unfold preview_chain. rewrite Hy, Hid, (no_lb_true e Hlb).
  destruct (youtube_re_group1 _ _ Hy) as (id' & Hid' & Hlen).
  rewrite Hid in Hid'. injection Hid' as <-.
  unfold JsString.len. rewrite Hlen. cbn [Nat.eqb andb].
  now destruct (String.eqb (embedded_resource s) (whole y)).
Qed.

End Input.

(** C2. While [embedded_resource] matches the GIF pattern, an input event
    changes nothing: the handler returns before any detection, so the state
    ([embedded_resource] and the panels with it) is what it was and no
    request is made, for one event and for any number of them in a row. *)
Theorem gif_lock_holds (pg : page) (s : state) :
  gif_locked s = true ->
  (forall e, textarea_input pg e s = (s, [PreventDefault])) /\
  (forall es,
     fst (inputs pg es s) = s /\
     Forall (fun fx => is_request fx = false) (snd (inputs pg es s))).
Proof.
  intros Hgif.
  assert (H1 : forall e, textarea_input pg e s = (s, [PreventDefault])).
  { intros e. unfold textarea_input. now rewrite Hgif. }
  split; [exact H1|].
  induction es as [|e es [IHs IHfx]]; simpl.
  - split; [reflexivity | constructor].
  - rewrite H1. destruct (inputs pg es s) as [s2 fx2]. simpl in *.
    split; [assumption | constructor; [reflexivity | assumption]].
Qed.

Lemma gif_lock_holds_witness :
  gif_locked gif_selected = true /\
  embedded_resource (fst (inputs logged_in two_edits gif_selected)) = giphy_src.
Proof.
  split; [reflexivity|].
  destruct (gif_lock_holds logged_in gif_selected eq_refl) as [_ H].
  destruct (H two_edits) as [-> _].
  reflexivity.
Defined.

(** C5, at the input where the code departs from it.  The text holds the
    link that is embedded already, character for character, and the handler
    asks for its metadata again: the equality test of the YouTube branch has
    no counterpart in the link branch. *)
Example link_redetection_fetches_again :
  option_map whole (match_ url_re (value grants)) = Some (embedded_resource grants_embedded) /\
  match_ youtube_re (value grants) = None /\
  gif_locked grants_embedded = false /\
  snd (textarea_input logged_in grants grants_embedded) =
    [PreventDefault;
     FetchData "service/metadata/?url=https://gitcoin.co/grants" None
               (Metadata "https://gitcoin.co/grants")].
Proof. vm_compute. repeat split. Qed.

(** The link branch asks for the metadata of every match it is given,
    whatever is embedded. *)
Lemma link_branch_always_fetches (pg : page) (e : input_event) (s : state) (site : found) :
  match_ youtube_re (value e) = None ->
  match_ url_re (value e) = Some site ->
  inputType e <> "insertLineBreak" ->
  preview_chain pg e s =
    Some (s, [FetchData ("service/metadata/?url=" +:+ whole site) None
                        (Metadata (whole site))]).
Proof.
  intros Hy Hsite Hlb. unfold preview_chain, link_or_none.
  now rewrite Hy, Hsite, (no_lb_true e Hlb).
Qed.

(** The YouTube branch is the one that compares first: no request when the
    matched text is the embedded one. *)
Lemma youtube_redetection_is_silent (pg : page) (e : input_event) (s : state) (y : found) :
  match_ youtube_re (value e) = Some y ->
  inputType e <> "insertLineBreak" ->
  embedded_resource s = whole y ->
  preview_chain pg e s = Some (s, []).
Proof.
  intros Hy Hlb Heq. destruct (youtube_re_group1 _ _ Hy) as (id & Hid & _).
  rewrite (preview_chain_youtube pg e s y id Hy Hid Hlb), Heq.
  now rewrite String.eqb_refl.
Qed.

(** C7 as stated fails: the text holds a YouTube link with an 11-character
    id, no GIF is selected, the edit is not a line break, and yet the video
    endpoint is not called, because the link is the embedded one already. *)
Lemma youtube_lookup_skipped :
  youtube_id (value rickroll_again) = Some "dQw4w9WgXcQ" /\
  gif_locked rickroll_embedded = false /\
  inputType rickroll_again <> "insertLineBreak" /\
  ~ In (video_lookup logged_in "dQw4w9WgXcQ" "https://youtu.be/dQw4w9WgXcQ")
       (snd (textarea_input logged_in rickroll_again rickroll_embedded)) /\
  snd (textarea_input logged_in rickroll_again rickroll_embedded) = [PreventDefault].
Proof.
  split; [reflexivity|]. split; [reflexivity|]. split; [discriminate|].
  assert (H : snd (textarea_input logged_in rickroll_again rickroll_embedded)
              = [PreventDefault]) by reflexivity.
  split; [|exact H]. rewrite H. intros [Hin|[]]. discriminate Hin.
Qed.

(** C7, amended.  For a text with a match of the YouTube pattern, no GIF
    selected and an edit that is not a line break, the handler takes the
    YouTube branch and never the link branch: the captured id has 11
    characters, no link-metadata request is made, and, unless
    [embedded_resource] is the matched text already (then no metadata is
    requested at all, and the event can ask for a user search only), the
    video endpoint is called with the id.  All the handler asks for is that
    lookup, if any, and what the mention part asks for on its own.  On an
    answer with at least one item the provider label becomes [Youtube] and
    the thumbnail [https://img.youtube.com/vi/<id>/default.jpg]. *)
Theorem youtube_link_classified (pg : page) (e : input_event) (s : state) (y : found) :
  match_ youtube_re (value e) = Some y ->
  gif_locked s = false ->
  inputType e <> "insertLineBreak" ->
  exists id,
    group 1 y = Some id /\ JsString.len id = 11 /\
    (embedded_resource s <> whole y ->
       In (video_lookup pg id (whole y)) (snd (textarea_input pg e s))) /\
    (embedded_resource s = whole y ->
       Forall (fun fx => is_metadata_fetch fx = false) (snd (textarea_input pg e s))) /\
    (forall url m u, ~ In (FetchData url m (Metadata u)) (snd (textarea_input pg e s))) /\
    (embedded_resource (fst (textarea_input pg e s)) = embedded_resource s /\
     thumb (fst (textarea_input pg e s)) = thumb s) /\
    (forall title items later,
       let s' := on_video_data id (whole y) (title :: items) later in
       thumbnail_provider (thumb s') = "Youtube" /\
       thumbnail_img (thumb s') = "https://img.youtube.com/vi/" +:+ id +:+ "/default.jpg" /\
       embedded_resource s' = whole y) /\
    snd (textarea_input pg e s) =
      PreventDefault
      :: (if String.eqb (embedded_resource s) (whole y) then []
          else [video_lookup pg id (whole y)])
      ++ snd (mention e s) /\
    (embedded_resource s = whole y ->
       Forall (fun fx => fx = PreventDefault \/
                         exists url w f, fx = FetchData url (Some "GET") (Users w f))
              (snd (textarea_input pg e s))).
Proof.
  intros Hy Hgif Hlb. destruct (youtube_re_group1 _ _ Hy) as (id & Hid & Hlen).
  exists id. split; [exact Hid|]. split; [exact Hlen|].
  unfold textarea_input. rewrite Hgif, (preview_chain_youtube pg e s y id Hy Hid Hlb).
  destruct (mention_spec e s) as [Hs2 Hm].
  destruct (mention e s) as [s2 fx2]. cbn [fst snd] in *.
  assert (Hmention : forall fx, In fx fx2 ->
                     exists url w f, fx = FetchData url (Some "GET") (Users w f)).
  { now apply List.Forall_forall. }
  split; [|split; [|split; [|split; [|split; [|split]]]]].
  - intros Hne. destruct (String.eqb_spec (embedded_resource s) (whole y)); [contradiction|].
    right. left. reflexivity.
  - intros Heq. rewrite Heq, String.eqb_refl. constructor; [reflexivity|].
    apply List.Forall_forall. intros fx Hin.
    destruct (Hmention fx Hin) as (url & w & f & ->). reflexivity.
  - intros url m u [Hin|Hin]; [discriminate|].
    apply in_app_or in Hin as [Hin|Hin].
    + destruct (String.eqb (embedded_resource s) (whole y)); [contradiction|].
      destruct Hin as [Hin|[]]. discriminate.
    + destruct (Hmention _ Hin) as (url' & w & f & [=]).
  - destruct Hs2 as [->| ->]; split; reflexivity.
  - intros title items later. repeat split.
  - reflexivity.
  - intros Heq. rewrite Heq, String.eqb_refl. constructor; [left; reflexivity|].
    apply List.Forall_forall. intros fx Hin. right. exact (Hmention fx Hin).
Qed.

Lemma youtube_link_classified_witness :
  match_ youtube_re (value rickroll) = Some rickroll_found /\
  gif_locked blank = false /\
  inputType rickroll <> "insertLineBreak" /\
  exists id,
    group 1 rickroll_found = Some id /\
    (embedded_resource blank <> whole rickroll_found ->
       In (video_lookup logged_in id (whole rickroll_found))
          (snd (textarea_input logged_in rickroll blank))).
Proof.
  assert (Hy : match_ youtube_re (value rickroll) = Some rickroll_found) by reflexivity.
  assert (Hlb : inputType rickroll <> "insertLineBreak") by discriminate.
  split; [exact Hy|]. split; [reflexivity|]. split; [exact Hlb|].
  destruct (youtube_link_classified logged_in rickroll blank rickroll_found Hy eq_refl Hlb)
    as (id & Hid & _ & Hcall & _).
  exists id. split; [exact Hid | exact Hcall].
Defined.

(** ** Mentions *)

Section Mention.

(** The pieces of [split(' ')]: one piece, the text itself, when the text
    has no space; otherwise the last piece is what follows the last
    space. *)
Lemma split_space_shape (s : string) :
  exists w ws,
    JsString.split_space s = w :: ws /\
    ((ws = [] /\ after_last JsString.space s = None /\ w = s) \/
     (ws <> [] /\ after_last JsString.space s = Some (List.last ws EmptyString))).
Proof.
  induction s as [|c t (w & ws & Hsplit & Hcase)].
  - exists EmptyString, []. split; [reflexivity|]. left. repeat split.
  - cbn [JsString.split_space after_last]. rewrite Hsplit.
    destruct (JsString.space c).
    + exists EmptyString, (w :: ws). split; [reflexivity|]. right.
      split; [discriminate|].
      destruct Hcase as [(-> & -> & ->)|(Hne & ->)]; [reflexivity|].
      destruct ws; [contradiction | reflexivity].
    + exists (String c w), ws. split; [reflexivity|].
      destruct Hcase as [(-> & -> & ->)|(Hne & ->)]; [left | right]; repeat split.
      assumption.
Qed.

(** [lastWord] is the last token of the text cut at spaces, and at spaces
    only. *)
Lemma lastWord_last_token (s : string) :
  JsString.pop (JsString.split_space s) = last_token JsString.space s.
Proof.
  unfold last_token, JsString.pop.
  destruct (split_space_shape s) as (w & ws & -> & [(-> & -> & ->)|(Hne & ->)]);
    [reflexivity|].
  destruct ws; [contradiction | reflexivity].
Qed.

End Mention.

(** C6 as stated fails twice.  After a line break the last token between
    white space is [@bob], but the handler cuts the text at spaces only,
    sees a last word that does not start with [@] and asks for no user.
    And with a GIF selected the handler has returned before it looks at the
    last word at all. *)
Lemma mention_lookup_missed :
  (last_token JsString.is_space (value mention_after_break) = "@bob" /\
   gif_locked blank = false /\
   ~ In (user_lookup "@bob") (snd (textarea_input logged_in mention_after_break blank)) /\
   snd (textarea_input logged_in mention_after_break blank) = [PreventDefault]) /\
  (last_token JsString.is_space (value mention_after_space) = "@bob" /\
   ~ In (user_lookup "@bob")
        (snd (textarea_input logged_in mention_after_space gif_selected)) /\
   snd (textarea_input logged_in mention_after_space gif_selected) = [PreventDefault]).
Proof.
  assert (H1 : snd (textarea_input logged_in mention_after_break blank) = [PreventDefault])
    by reflexivity.
  assert (H2 : snd (textarea_input logged_in mention_after_space gif_selected)
               = [PreventDefault]) by reflexivity.
  rewrite H1, H2.
  repeat split; try reflexivity; intros [Hin|[]]; discriminate Hin.
Qed.

(** C6, amended.  While no GIF is selected: when the last token of the text
    cut at spaces starts with [@] and has more than 2 characters after it,
    the handler asks the user search for them, and the answer replaces the
    content of the dropdown, whatever it was, and shows it; when that token
    does not start with [@] the dropdown is hidden.  Losing focus hides the
    dropdown too, 100 ms later. *)
Theorem mention_lookup (pg : page) (e : input_event) (s : state) :
  gif_locked s = false ->
  let lastWord := last_token JsString.space (value e) in
  (JsString.startsWith "@" lastWord = true ->
   2 < JsString.len (JsString.slice1 lastWord) ->
   In (user_lookup lastWord) (snd (textarea_input pg e s))) /\
  (JsString.startsWith "@" lastWord = false ->
   dropdown_show (menu (fst (textarea_input pg e s))) = false) /\
  (forall data later,
     menu (on_users pg lastWord (JsString.slice1 lastWord) data later) =
       Dropdown (suggestions pg (JsString.slice1 lastWord) data) true) /\
  textarea_focusout = [SetTimeout HideDropdown 100] /\
  (forall later, dropdown_show (menu (run_task HideDropdown later)) = false).
Proof.
  intros Hgif lastWord. subst lastWord. rewrite <- lastWord_last_token.
  unfold textarea_input. rewrite Hgif.
  destruct (preview_chain_total pg e s) as (s1 & fx1 & -> & Hmenu).
  split; [|split; [|split; [|split]]].
  - intros Hat Hlen. unfold mention. rewrite Hat.
    destruct (Nat.ltb_spec 2 (JsString.len
                (JsString.slice1 (JsString.pop (JsString.split_space (value e))))));
      [|lia].
    right. apply in_or_app. right. left. reflexivity.
  - intros Hat. unfold mention. rewrite Hat. reflexivity.
  - intros data later. unfold on_users, suggestions.
    destruct data as [[|p ps]|]; reflexivity.
  - reflexivity.
  - reflexivity.
Qed.

Lemma mention_lookup_witness :
  gif_locked blank = false /\
  JsString.startsWith "@" (last_token JsString.space (value mention_after_space)) = true /\
  2 < JsString.len (JsString.slice1 (last_token JsString.space (value mention_after_space))) /\
  In (FetchData "/api/v0.1/users_fetch/?search=bob" (Some "GET") (Users "@bob" "bob"))
     (snd (textarea_input logged_in mention_after_space blank)).
Proof.
  assert (Hlen : 2 < JsString.len
                       (JsString.slice1 (last_token JsString.space (value mention_after_space))))
    by (vm_compute; lia).
  split; [reflexivity|]. split; [reflexivity|]. split; [exact Hlen|].
  exact (proj1 (mention_lookup logged_in mention_after_space blank eq_refl) eq_refl Hlen).
Defined.

(** ** Posting without a login *)

(** C4, at the input where the code departs from it.  Nobody is logged in:
    the guard of lines 69 to 75 cancels the click and prompts for a login,
    but the listener of lines 59 to 67 has run before it, so a click on the
    enabled post button sends the submission all the same; and so does the
    Enter key, which no guard looks at, with no prompt at all. *)
Lemma anonymous_post_is_sent :
  JsString.truthy (github_handle anonymous) = false /\
  snd (click_btn_post anonymous draft) =
    [Fetch "/api/v0.1/activity" "post"
           [("ask", ""); ("data", "hello world"); ("what", "status_update");
            ("tab", "everywhere"); ("has_video", "1"); ("video_gfx", "video2.gif");
            ("csrfmiddlewaretoken", "token"); ("option1", "yes"); ("option2", "no")]
           (Submitted "hello world");
     PreventDefault; Alert (Plain "Please login first.") "error" None] /\
  ~ Forall (fun fx => is_request fx = false) (snd (click_btn_post anonymous draft)) /\
  snd (textarea_keys anonymous enter typed) =
    [Fetch "/api/v0.1/activity" "post"
           [("ask", ""); ("data", "hello world"); ("what", "status_update");
            ("tab", "everywhere"); ("csrfmiddlewaretoken", "token")]
           (Submitted "hello world");
     PreventDefault] /\
  ~ Forall (fun fx => is_request fx = false) (snd (textarea_keys anonymous enter typed)).
Proof.
  split; [reflexivity|]. split; [reflexivity|].
  split; [|split; [reflexivity|]];
    intros H; inversion H as [|fx fxs Hfx _]; discriminate Hfx.
Qed.

(** * Further properties *)

(** ** Matches are pieces of the text *)

Section Pieces.

Lemma append_assoc3 (a b c : string) : (a +:+ b) +:+ c = a +:+ (b +:+ c).
Proof.
  induction a as [|x a IH]; [reflexivity|].
  change (String x ((a +:+ b) +:+ c) = String x (a +:+ b +:+ c)). now rewrite IH.
Qed.

Lemma append_empty_r (a : string) : a +:+ "" = a.
Proof.
  induction a as [|x a IH]; [reflexivity|].
  change (String x (a +:+ "") = String x a). now rewrite IH.
Qed.

Lemma piece_append (u a b c : string) : piece u b -> piece u (a +:+ b +:+ c).
Proof.
  intros (pre & post & ->). exists (a +:+ pre), (post +:+ c).
  now rewrite !append_assoc3.
Qed.

Lemma mem_char_append (c : ascii) (a b : string) :
  mem_char c (a +:+ b) = mem_char c a || mem_char c b.
Proof.
  induction a as [|x a IH]; [reflexivity|].
  change (Ascii.eqb c x || mem_char c (a +:+ b)
          = Ascii.eqb c x || mem_char c a || mem_char c b).
  now rewrite IH, orb_assoc.
Qed.

Lemma mem_char_piece (c : ascii) (u s : string) :
  piece u s -> mem_char c u = true -> mem_char c s = true.
Proof.
  intros (pre & post & ->) Hu. rewrite !mem_char_append, Hu.
  now rewrite orb_true_r.
Qed.

(** A literal eats itself and nothing else. *)
Lemma eat_spec (lit : string) :
  forall b s b' s', eat lit b s = Some (b', s') -> s = lit +:+ s'.
Proof.
  induction lit as [|c lit IH]; intros b s b' s'; cbn.
  - now intros [= _ ->].
  - destruct s as [|d s]; [discriminate|].
    destruct (Ascii.eqb_spec c d) as [->|]; [|discriminate].
    intros H. now rewrite (IH _ _ _ _ H).
Qed.

Lemma eat_append (lit : string) :
  forall b post, exists b', eat lit b (lit +:+ post) = Some (b', post).
Proof.
  induction lit as [|c lit IH]; intros b post; [cbn; eauto|].
  change (String c lit +:+ post) with (String c (lit +:+ post)). cbn [eat].
  rewrite Ascii.eqb_refl. apply IH.
Qed.

(** A run only moves forward: where it ends is a tail of where it began. *)
Lemma run_ahead (r : regex) :
  forall p q, In q (run r p) -> exists taken, ahead p = taken +:+ ahead q.
Proof.
  induction r as [lit|a|a lo hi|r1 IH1 r2 IH2|r1 IH1 r2 IH2|r IH|i r IH|r IH|];
    intros p q Hq; cbn [run] in Hq.
  - destruct (eat lit (before p) (ahead p)) as [[b s]|] eqn:E; [|contradiction].
    destruct Hq as [<-|[]]. exists lit. exact (eat_spec _ _ _ _ _ E).
  - destruct (ahead p) as [|c s] eqn:E; [contradiction|].
    destruct (atom_mem a c); [|contradiction].
    destruct Hq as [<-|[]]. exists (String c ""). reflexivity.
  - apply rep_spec in Hq as [_ (taken & Hs & _)]. eauto.
  - apply in_flat_map in Hq as (m & Hm & Hq).
    destruct (IH1 _ _ Hm) as [t1 H1], (IH2 _ _ Hq) as [t2 H2].
    exists (t1 +:+ t2). now rewrite H1, H2, append_assoc3.
  - apply in_app_or in Hq as [Hq|Hq]; eauto.
  - apply in_app_or in Hq as [Hq|[<-|[]]]; [eauto|]. now exists "".
  - apply in_map_iff in Hq as (q0 & <- & Hq0). apply (IH _ _ Hq0).
  - destruct (run r p); [|contradiction]. destruct Hq as [<-|[]]. now exists "".
  - destruct (xorb _ _); [|contradiction]. destruct Hq as [<-|[]]. now exists "".
Qed.

(** What [search] finds: the best run from some place in the text. *)
Lemma search_found (r : regex) (s : string) :
  forall b y, search r b s = Some y ->
    exists pre p q,
      s = pre +:+ ahead p /\ caps p = [] /\ In q (run r p) /\
      groups y = caps q /\ whole y = consumed (ahead p) (ahead q).
Proof.
  induction s as [|c s IH]; intros b y; cbn [search].
  - destruct (run r (Pos b "" [])) as [|q l] eqn:E; [discriminate|].
    intros [= <-]. exists "", (Pos b "" []), q. rewrite E. cbn. auto 6.
  - destruct (run r (Pos b (String c s) [])) as [|q l] eqn:E.
    + intros H. destruct (IH _ _ H) as (pre & p & q & -> & Hrest).
      exists (String c pre), p, q. split; [reflexivity | exact Hrest].
    + intros [= <-]. exists "", (Pos b (String c s) []), q. rewrite E. cbn. auto 6.
Qed.


(** A pattern that can run from some place in the text is found. *)
Lemma search_hit (r : regex) (pre : string) :
  forall b rest,
    (forall b', run r (Pos b' rest []) <> []) ->
    search r b (pre +:+ rest) <> None.
Proof.
  induction pre as [|c pre IH]; intros b rest Hrun.
  - change ("" +:+ rest) with rest. specialize (Hrun b).
    destruct rest; cbn [search]; destruct (run r _); congruence.
  - change (String c pre +:+ rest) with (String c (pre +:+ rest)). cbn [search].
    destruct (run r _); [now apply IH | discriminate].
Qed.

End Pieces.

(** ** What the three patterns accept *)

Section Patterns.

Lemma run_Str (lit : string) (p q : pos) :
  In q (run (Str lit) p) -> ahead p = lit +:+ ahead q.
Proof.
  cbn [run]. destruct (eat lit (before p) (ahead p)) as [[b s]|] eqn:E; [|contradiction].
  intros [<-|[]]. exact (eat_spec _ _ _ _ _ E).
Qed.

Lemma run_Str_hit (lit post : string) (b : option ascii) (cs : list (nat * string)) :
  exists b', run (Str lit) (Pos b (lit +:+ post) cs) = [Pos b' post cs].
Proof.
  cbn [run before ahead caps]. destruct (eat_append lit b post) as [b' ->]. eauto.
Qed.

Lemma run_Opt_skip (r : regex) (p : pos) : In p (run (Opt r) p).
Proof. cbn [run]. apply in_or_app. right. now left. Qed.



(** Both link patterns need a dot in the text. *)
Lemma url_re_dot (s : string) (site : found) :
  match_ url_re s = Some site -> mem_char "." s = true.
Proof.
  intros H. apply search_found in H as (pre & p & q & -> & _ & Hq & _).
  unfold url_re in Hq.
  apply run_Seq in Hq as (m1 & H1 & Hq). apply run_Seq in Hq as (m2 & H2 & Hq).
  apply run_Seq in Hq as (m3 & H3 & Hq). apply run_Seq in Hq as (m4 & H4 & _).
  apply run_ahead in H1 as [t1 ->], H2 as [t2 ->], H3 as [t3 ->].
  apply run_Str in H4 as ->.
  rewrite !mem_char_append. cbn. now rewrite !orb_true_r.
Qed.

Lemma youtube_re_dot (s : string) (y : found) :
  match_ youtube_re s = Some y -> mem_char "." s = true.
Proof.
  intros H. apply search_found in H as (pre & p & q & -> & _ & Hq & _).
  unfold youtube_re in Hq.
  apply run_Seq in Hq as (m1 & H1 & Hq). apply run_Seq in Hq as (m2 & H2 & Hq).
  apply run_Seq in Hq as (m3 & H3 & _).
  apply run_ahead in H1 as [t1 ->], H2 as [t2 ->].
  cbn [run] in H3. apply in_app_or in H3 as [H3|H3].
  - apply (run_Str "youtu.be/") in H3 as ->.
    rewrite !mem_char_append. cbn. now rewrite !orb_true_r.
  - apply in_flat_map in H3 as (m & Hm & _). apply run_Str in Hm as ->.
    rewrite !mem_char_append. cbn. now rewrite !orb_true_r.
Qed.




(** [giphy_re] accepts a text exactly when [giphy.com/media/] lies in it. *)
Lemma giphy_re_piece (s : string) :
  match_ giphy_re s <> None <-> piece "giphy.com/media/" s.
Proof.
  split.
  - destruct (match_ giphy_re s) as [y|] eqn:H; [intros _ | congruence].
    apply search_found in H as (pre & p & q & -> & _ & Hq & _).
    unfold giphy_re in Hq.
    apply run_Seq in Hq as (m1 & H1 & Hq). apply run_Seq in Hq as (m2 & H2 & H3).
    apply run_ahead in H1 as [t1 ->], H2 as [t2 ->]. apply run_Str in H3 as ->.
    exists (pre +:+ t1 +:+ t2), (ahead q). now rewrite !append_assoc3.
  - intros (pre & post & ->). apply search_hit. intros b'.
    destruct (run_Str_hit "giphy.com/media/" post b' []) as [b'' Hlit].
    assert (Hin : In (Pos b'' post [])
                     (run giphy_re (Pos b' ("giphy.com/media/" +:+ post) []))).
    { unfold giphy_re. apply run_Seq. eexists. split; [apply run_Opt_skip|].
      apply run_Seq. eexists. split; [apply run_Opt_skip|].
      rewrite Hlit. now left. }
    intros E. now rewrite E in Hin.
Qed.

End Patterns.

(** ** What an input event can ask for *)

Section Lookups.

Variable pg : page.

(** The three ways through the preview chain. *)
Lemma preview_chain_cases (e : input_event) (s : state) :
  (exists y id,
     match_ youtube_re (value e) = Some y /\ group 1 y = Some id /\
     inputType e <> "insertLineBreak" /\
     preview_chain pg e s =
       Some (s, if String.eqb (embedded_resource s) (whole y) then []
                else [video_lookup pg id (whole y)])) \/
  (exists site,
     match_ youtube_re (value e) = None /\ match_ url_re (value e) = Some site /\
     inputType e <> "insertLineBreak" /\
     preview_chain pg e s =
       Some (s, [FetchData ("service/metadata/?url=" +:+ whole site) None
                           (Metadata (whole site))])) \/
  ((inputType e = "insertLineBreak" \/
    (match_ youtube_re (value e) = None /\ match_ url_re (value e) = None)) /\
   preview_chain pg e s =
     Some (no_embed (negb (String.eqb (inputType e) "insertLineBreak")) s, [])).
Proof.
  destruct (String.eqb_spec (inputType e) "insertLineBreak") as [Hlb|Hlb].
  - right. right. split; [now left|].
    unfold preview_chain, link_or_none. rewrite Hlb. cbn [String.eqb negb].
    change (String.eqb "insertLineBreak" "insertLineBreak") with true. cbn [negb].
    destruct (match_ youtube_re (value e)) as [y|] eqn:Hy.
    + destruct (youtube_re_group1 _ _ Hy) as (id & -> & _).
      rewrite andb_false_r. destruct (match_ url_re (value e)); [|reflexivity].
      now rewrite andb_false_r.
    + destruct (match_ url_re (value e)); [|reflexivity]. now rewrite andb_false_r.
  - destruct (match_ youtube_re (value e)) as [y|] eqn:Hy.
    + left. destruct (youtube_re_group1 _ _ Hy) as (id & Hid & _).
      exists y, id. repeat split; try assumption.
      now apply preview_chain_youtube.
    + destruct (match_ url_re (value e)) as [site|] eqn:Hsite.
      * right. left. exists site. repeat split; try assumption.
        now apply link_branch_always_fetches.
      * right. right. split; [now right|].
        unfold preview_chain, link_or_none.
        now rewrite Hy, Hsite, (no_lb_true e Hlb).
Qed.

(** What a handler that got past the GIF test returns. *)
Lemma textarea_input_unlocked (e : input_event) (s : state) :
  gif_locked s = false ->
  exists s1 fx1,
    preview_chain pg e s = Some (s1, fx1) /\
    textarea_input pg e s = (fst (mention e s1), PreventDefault :: fx1 ++ snd (mention e s1)).
Proof.
  intros Hgif. destruct (preview_chain_total pg e s) as (s1 & fx1 & H & _).
  exists s1, fx1. split; [exact H|]. unfold textarea_input. rewrite Hgif, H.
  now destruct (mention e s1).
Qed.

Lemma mention_no_metadata (e : input_event) (s : state) (fx : effect) :
  In fx (snd (mention e s)) -> is_metadata_fetch fx = false.
Proof.
  intros Hin. destruct (mention_spec e s) as [_ H].
  rewrite List.Forall_forall in H. now destruct (H _ Hin) as (url & w & f & ->).
Qed.

End Lookups.






(** X4. The GIF test of line 94 passes exactly for a string in which
    [giphy.com/media/] lies somewhere, whatever stands around it: a value
    that is no string never passes, and a [state], whose variable is a
    string, is locked exactly when the text lies in it.  So a click on a
    grid image whose [.data('src')] is such a string locks the composer, and
    every input event after it is ignored. *)
Theorem gif_lock_iff (src : string) (s : state) :
  (forall v, gif_test v = true <->
             exists text, v = JsText text /\ piece "giphy.com/media/" text) /\
  gif_locked s = gif_test (JsText (embedded_resource s)) /\
  (gif_locked s = true <-> piece "giphy.com/media/" (embedded_resource s)) /\
  (gif_locked (selectGif src s) = true <-> piece "giphy.com/media/" src) /\
  (piece "giphy.com/media/" src ->
   forall pg e, textarea_input pg e (selectGif src s) = (selectGif src s, [PreventDefault])).
Proof.
  assert (H : forall s', gif_locked s' = true <->
                         piece "giphy.com/media/" (embedded_resource s')).
  { intros s'. rewrite <- giphy_re_piece. unfold gif_locked.
    destruct (match_ giphy_re (embedded_resource s')); split; congruence. }
  split; [|split; [reflexivity|]].
  - intros [text|]; cbn [gif_test].
    + split.
      * intros Ht. exists text. split; [reflexivity|]. apply giphy_re_piece.
        destruct (match_ giphy_re text); congruence.
      * intros (text' & [= <-] & Hp). apply giphy_re_piece in Hp.
        destruct (match_ giphy_re text); congruence.
    + split; [discriminate|]. intros (text & Habs & _). discriminate Habs.
  - split; [apply H|]. split; [apply (H (selectGif src s))|].
    intros Hsrc pg e. unfold textarea_input.
    now rewrite (proj2 (H (selectGif src s)) Hsrc).
Qed.

Lemma gif_lock_iff_witness :
  piece "giphy.com/media/" giphy_src /\
  textarea_input logged_in grants (selectGif giphy_src blank)
    = (selectGif giphy_src blank, [PreventDefault]).
Proof.
  assert (H : piece "giphy.com/media/" giphy_src)
    by (exists "https://media0.", "l0HlBO7eyXzSZkJri/giphy.webp"; reflexivity).
  split; [exact H|].
  exact (proj2 (proj2 (proj2 (proj2 (gif_lock_iff giphy_src blank)))) H logged_in grants).
Defined.

(** ** What an input event does to the preview *)

Section Preview.

Lemma mention_keeps_preview (e : input_event) (s : state) :
  embedded_resource (fst (mention e s)) = embedded_resource s /\
  thumb (fst (mention e s)) = thumb s /\ prev (fst (mention e s)) = prev s.
Proof. destruct (mention_spec e s) as [[-> | ->] _]; repeat split. Qed.

(** The last token has no space in it. *)
Lemma after_last_none (sep : ascii -> bool) (s : string) :
  after_last sep s = None -> all_chars (fun c => negb (sep c)) s = true.
Proof.
  induction s as [|c s IH]; [reflexivity|]. cbn.
  destruct (after_last sep s); [discriminate|].
  destruct (sep c); [discriminate|]. intros _. now rewrite IH.
Qed.

Lemma last_token_no_sep (sep : ascii -> bool) (s : string) :
  all_chars (fun c => negb (sep c)) (last_token sep s) = true.
Proof.
  unfold last_token. destruct (after_last sep s) as [r|] eqn:E;
    [|now apply after_last_none].
  revert r E. induction s as [|c s IH]; intros r; cbn; [discriminate|].
  destruct (after_last sep s) as [r'|] eqn:E'.
  - intros [= <-]. now apply IH.
  - destruct (sep c); [|discriminate]. intros [= <-]. now apply after_last_none.
Qed.

Lemma no_space_mem_char (s : string) :
  all_chars (fun c => negb (JsString.space c)) s = true -> mem_char " " s = false.
Proof.
  induction s as [|c s IH]; [reflexivity|]. intros H.
  change (negb (Ascii.eqb c " ") && all_chars (fun c => negb (JsString.space c)) s = true)
    in H.
  change (Ascii.eqb " " c || mem_char " " s = false).
  rewrite (Ascii.eqb_sym " " c).
  destruct (Ascii.eqb c " "); [discriminate|]. exact (IH H).
Qed.

End Preview.

(** X5. A line break keeps what is embedded: with no GIF selected, an input
    event of type [insertLineBreak] asks for no metadata and leaves
    [embedded_resource], the GIF preview and the thumbnail as they are,
    except that the description of the thumbnail is emptied. *)
Theorem line_break_keeps_embed (pg : page) (e : input_event) (s : state) :
  gif_locked s = false ->
  inputType e = "insertLineBreak" ->
  let s' := fst (textarea_input pg e s) in
  embedded_resource s' = embedded_resource s /\
  prev s' = prev s /\
  thumb s' = thumb (thumbnail_desc_text "" s) /\
  Forall (fun fx => is_metadata_fetch fx = false) (snd (textarea_input pg e s)).
Proof.
  intros Hgif Hlb s'. subst s'.
  destruct (textarea_input_unlocked pg e s Hgif) as (s1 & fx1 & Hchain & ->).
  destruct (preview_chain_cases pg e s)
    as [(y & id & _ & _ & Hne & _)|[(site & _ & _ & Hne & _)|(_ & H)]];
    [contradiction | contradiction |].
  rewrite H in Hchain. injection Hchain as <- <-. cbn [fst snd app].
  rewrite Hlb. change (negb (String.eqb "insertLineBreak" "insertLineBreak")) with false.
  destruct (mention_keeps_preview e (no_embed false s)) as (-> & -> & ->).
  repeat split. constructor; [reflexivity|].
  apply List.Forall_forall. intros fx. apply mention_no_metadata.
Qed.

Lemma line_break_keeps_embed_witness :
  gif_locked rickroll_embedded = false /\
  embedded_resource
    (fst (textarea_input logged_in (InputEvent ("see" +:+ LF) "insertLineBreak")
                         rickroll_embedded))
    = "https://youtu.be/dQw4w9WgXcQ".
Proof.
  split; [reflexivity|].
  exact (proj1 (line_break_keeps_embed logged_in
                  (InputEvent ("see" +:+ LF) "insertLineBreak") rickroll_embedded
                  eq_refl eq_refl)).
Defined.

(** X6. A text without a dot embeds nothing: with no GIF selected and an
    edit that is not a line break, the handler asks for no metadata, empties
    [embedded_resource] and the description, and hides the thumbnail. *)
Theorem no_dot_no_embed (pg : page) (e : input_event) (s : state) :
  gif_locked s = false ->
  inputType e <> "insertLineBreak" ->
  mem_char "." (value e) = false ->
  let s' := fst (textarea_input pg e s) in
  embedded_resource s' = "" /\
  thumbnail_shown (thumb s') = false /\ thumbnail_desc (thumb s') = "" /\
  Forall (fun fx => is_metadata_fetch fx = false) (snd (textarea_input pg e s)).
Proof.
  intros Hgif Hlb Hdot s'. subst s'.
  destruct (textarea_input_unlocked pg e s Hgif) as (s1 & fx1 & Hchain & ->).
  destruct (preview_chain_cases pg e s)
    as [(y & id & Hy & _)|[(site & _ & Hsite & _)|(_ & H)]].
  - apply youtube_re_dot in Hy. congruence.
  - apply url_re_dot in Hsite. congruence.
  - rewrite H in Hchain. injection Hchain as <- <-. cbn [fst snd app].
    rewrite (no_lb_true e Hlb).
    destruct (mention_keeps_preview e (no_embed true s)) as (-> & -> & _).
    repeat split. constructor; [reflexivity|].
    apply List.Forall_forall. intros fx. apply mention_no_metadata.
Qed.

Lemma no_dot_no_embed_witness :
  gif_locked rickroll_embedded = false /\
  inputType mention_after_space <> "insertLineBreak" /\
  mem_char "." (value mention_after_space) = false /\
  embedded_resource (fst (textarea_input logged_in mention_after_space rickroll_embedded))
    = "".
Proof.
  assert (Hlb : inputType mention_after_space <> "insertLineBreak") by discriminate.
  split; [reflexivity|]. split; [exact Hlb|]. split; [reflexivity|].
  exact (proj1 (no_dot_no_embed logged_in mention_after_space rickroll_embedded
                  eq_refl Hlb eq_refl)).
Defined.

(** X7. The user search is only ever asked for what follows the [@] of the
    last word of the text cut at spaces: a term of at least 3 characters
    with no space in it, appended as it is to the address of the search. *)
Theorem user_lookup_term (pg : page) (e : input_event) (s : state)
    (url w f : string) (m : option string) :
  In (FetchData url m (Users w f)) (snd (textarea_input pg e s)) ->
  w = last_token JsString.space (value e) /\
  JsString.startsWith "@" w = true /\ f = JsString.slice1 w /\
  url = "/api/v0.1/users_fetch/?search=" +:+ f /\ m = Some "GET" /\
  2 < JsString.len f /\ mem_char " " f = false /\
  gif_locked s = false.
Proof.
  intros Hin. destruct (gif_locked s) eqn:Hgif.
  { unfold textarea_input in Hin. rewrite Hgif in Hin.
    destruct Hin as [Hin|[]]. discriminate. }
  destruct (textarea_input_unlocked pg e s Hgif) as (s1 & fx1 & Hchain & Hall).
  rewrite Hall in Hin. cbn [snd] in Hin.
  destruct Hin as [Hin|Hin]; [discriminate|].
  apply in_app_or in Hin as [Hin|Hin].
  { destruct (preview_chain_cases pg e s)
      as [(y & id & _ & _ & _ & H)|[(site & _ & _ & _ & H)|(_ & H)]];
      rewrite H in Hchain; injection Hchain as <- <-.
    - destruct (String.eqb _ _); [contradiction|]. destruct Hin as [Hin|[]]. discriminate.
    - destruct Hin as [Hin|[]]. discriminate.
    - contradiction. }
  rewrite <- lastWord_last_token.
  assert (Hnosp : mem_char " " (JsString.slice1 (JsString.pop (JsString.split_space (value e))))
                  = false).
  { rewrite lastWord_last_token. apply no_space_mem_char.
    pose proof (last_token_no_sep JsString.space (value e)) as H.
    destruct (last_token JsString.space (value e)) as [|c t]; [reflexivity|].
    cbn in H. now apply andb_prop in H as [_ H]. }
  unfold mention in Hin.
  destruct (JsString.startsWith "@" _) eqn:Hat; [|contradiction].
  destruct (Nat.ltb_spec 2 (JsString.len
              (JsString.slice1 (JsString.pop (JsString.split_space (value e))))))
    as [Hlen|]; [|contradiction].
  destruct Hin as [[= <- <- <- <-]|[]]. repeat split; assumption.
Qed.

Lemma user_lookup_term_witness :
  In (FetchData "/api/v0.1/users_fetch/?search=bob" (Some "GET") (Users "@bob" "bob"))
     (snd (textarea_input logged_in mention_after_space blank)) /\
  mem_char " " "bob" = false.
Proof.
  assert (Hin : In (FetchData "/api/v0.1/users_fetch/?search=bob" (Some "GET")
                              (Users "@bob" "bob"))
                   (snd (textarea_input logged_in mention_after_space blank)))
    by (right; left; reflexivity).
  split; [exact Hin|].
  exact (proj1 (proj2 (proj2 (proj2 (proj2 (proj2 (proj2
           (user_lookup_term logged_in mention_after_space blank _ _ _ _ Hin)))))))).
Defined.

(** ** Trimming *)

Section Trim.

Lemma trim_end_head (c : ascii) (t : string) :
  JsString.is_space c = false ->
  JsString.trim_end (String c t) = String c (JsString.trim_end t).
Proof.
  intros Hc. cbn [JsString.trim_end]. rewrite Hc.
  now destruct (JsString.trim_end t).
Qed.

Lemma trim_start_head (s : string) :
  space_opt (next_char (JsString.trim_start s)) = false.
Proof.
  induction s as [|c s IH]; [reflexivity|]. cbn [JsString.trim_start].
  destruct (JsString.is_space c) eqn:Hc; [exact IH|]. cbn. exact Hc.
Qed.

Lemma trim_start_clean (s : string) :
  space_opt (next_char s) = false -> JsString.trim_start s = s.
Proof. destruct s as [|c s]; [reflexivity|]. cbn. now intros ->. Qed.

Lemma trim_end_last (s : string) :
  space_opt (last_char (JsString.trim_end s)) = false.
Proof.
  induction s as [|c s IH]; [reflexivity|]. cbn [JsString.trim_end].
  destruct (JsString.trim_end s) as [|d t] eqn:E.
  - destruct (JsString.is_space c) eqn:Hc; [reflexivity|]. cbn. exact Hc.
  - exact IH.
Qed.

Lemma trim_end_idem (s : string) :
  JsString.trim_end (JsString.trim_end s) = JsString.trim_end s.
Proof.
  induction s as [|c s IH]; [reflexivity|]. cbn [JsString.trim_end].
  destruct (JsString.trim_end s) as [|d t] eqn:E.
  - destruct (JsString.is_space c) eqn:Hc; [reflexivity|].
    cbn [JsString.trim_end]. now rewrite Hc.
  - cbn [JsString.trim_end] in *. rewrite IH. reflexivity.
Qed.

Lemma trim_end_length (s : string) :
  String.length (JsString.trim_end s) <= String.length s.
Proof.
  induction s as [|c s IH]; [reflexivity|]. cbn [JsString.trim_end].
  destruct (JsString.trim_end s) as [|d t].
  - destruct (JsString.is_space c); cbn; lia.
  - cbn in *. lia.
Qed.

Lemma trim_start_length (s : string) :
  String.length (JsString.trim_start s) <= String.length s.
Proof.
  induction s as [|c s IH]; [reflexivity|]. cbn [JsString.trim_start].
  destruct (JsString.is_space c); cbn; lia.
Qed.

(** What [trim] returns has no white space at either end, is left alone by
    another [trim], and is no longer than the text. *)
Lemma trim_spec (s : string) :
  edges_clean (JsString.trim s) = true /\
  JsString.trim (JsString.trim s) = JsString.trim s /\
  JsString.len (JsString.trim s) <= JsString.len s.
Proof.
  unfold JsString.trim, edges_clean, JsString.len.
  assert (Hhead : space_opt (next_char (JsString.trim_end (JsString.trim_start s))) = false).
  { pose proof (trim_start_head s) as H.
    destruct (JsString.trim_start s) as [|c t]; [reflexivity|]. cbn in H.
    now rewrite (trim_end_head c t H). }
  split; [|split].
  - now rewrite Hhead, trim_end_last.
  - now rewrite (trim_start_clean _ Hhead), trim_end_idem.
  - pose proof (trim_end_length (JsString.trim_start s)).
    pose proof (trim_start_length s). lia.
Qed.

End Trim.

(** ** Keystrokes *)

Section Keys.

Variable pg : page.

(** The form reads the text, the embed, the thumbnail, the poll and the
    decoration, and nothing else. *)
Lemma form_data_reads (s s' : state) :
  textarea s' = textarea s -> embedded_resource s' = embedded_resource s ->
  thumb s' = thumb s -> poll_container s' = poll_container s ->
  video_container s' = video_container s ->
  form_data pg s' = form_data pg s.
Proof.
  intros Ht He Hth Hp Hv.
  unfold form_data, resource_fields, poll_field, poll_val.
  now rewrite Ht, He, Hth, Hp, Hv.
Qed.

Lemma counted_frame (s : state) :
  textarea (counted pg s) = textarea s /\
  embedded_resource (counted pg s) = embedded_resource s /\
  thumb (counted pg s) = thumb s /\ poll_container (counted pg s) = poll_container s /\
  video_container (counted pg s) = video_container s /\
  textarea_focus (counted pg s) = textarea_focus s /\
  textarea_red (counted pg s) = textarea_red s /\
  localStorage (counted pg s) = <[lskey pg := textarea s]> (localStorage s).
Proof.
  unfold counted, update_max_len. destruct (char_count s); repeat split.
Qed.

(** The four ways through the keystroke handler. *)
Lemma textarea_keys_cases (e : key_event) (s : state) :
  let len := JsString.len (JsString.trim (textarea s)) in
  textarea_keys pg e s =
    if negb (within_max pg len)
    then (set_btn_post_disabled true (set_textarea_red true (counted pg s)), [])
    else if 4 <? len
    then
      let ready := set_textarea_red false (set_btn_post_disabled false (counted pg s)) in
      if is_enter e s
      then (fst (submitStatusUpdate pg ready),
            [Fetch "/api/v0.1/activity" "post" (form_data pg s)
                   (Submitted (JsString.trim (textarea s)));
             PreventDefault])
      else (ready, [])
    else (set_btn_post_disabled true (counted pg s), []).
Proof.
  intros len. unfold textarea_keys, within_max, is_enter. fold len.
  change (setItem (lskey pg) (textarea (update_max_len pg len s)) (update_max_len pg len s))
    with (counted pg s).
  destruct (counted_frame s) as (Ht & He & Hth & Hp & Hv & Hf & _).
  destruct (maxlen pg) as [m|]; [destruct (m <? len)|]; cbn [negb]; try reflexivity.
  - destruct (4 <? len); [|reflexivity].
    cbn [textarea_focus set_textarea_red set_btn_post_disabled]. rewrite Hf.
    destruct (textarea_focus s && negb (shiftKey e) && _); [|reflexivity].
    rewrite submit_enabled by reflexivity. cbn [fst app].
    cbn [textarea set_textarea_red set_btn_post_disabled]. rewrite Ht.
    rewrite (form_data_reads s) by (cbn; assumption). reflexivity.
  - destruct (4 <? len); [|reflexivity].
    cbn [textarea_focus set_textarea_red set_btn_post_disabled]. rewrite Hf.
    destruct (textarea_focus s && negb (shiftKey e) && _); [|reflexivity].
    rewrite submit_enabled by reflexivity. cbn [fst app].
    cbn [textarea set_textarea_red set_btn_post_disabled]. rewrite Ht.
    rewrite (form_data_reads s) by (cbn; assumption). reflexivity.
Qed.

End Keys.

Section Frames.

Variable pg : page.

(** The input handler writes the embed, the thumbnail and the dropdown, and
    nothing else. *)
Lemma textarea_input_frame (e : input_event) (s : state) :
  let s' := fst (textarea_input pg e s) in
  localStorage s' = localStorage s /\ textarea s' = textarea s /\
  btn_post_disabled s' = btn_post_disabled s /\ prev s' = prev s /\
  poll_container s' = poll_container s /\ video_container s' = video_container s.
Proof.
  intros s'. subst s'. destruct (gif_locked s) eqn:Hgif.
  { unfold textarea_input. rewrite Hgif. repeat split. }
  destruct (textarea_input_unlocked pg e s Hgif) as (s1 & fx1 & Hchain & ->).
  cbn [fst].
  assert (H1 : s1 = s \/ exists b, s1 = no_embed b s).
  { destruct (preview_chain_cases pg e s)
      as [(y & id & _ & _ & _ & H)|[(site & _ & _ & _ & H)|(_ & H)]];
      rewrite H in Hchain; injection Hchain as <- _; eauto. }
  destruct (mention_spec e s1) as [[-> | ->] _];
    destruct H1 as [->|[[|] ->]]; repeat split.
Qed.

End Frames.

Section KeysAux.

Variable pg : page.

Lemma post_button_mirrors_length_aux (e : key_event) (s : state) :
  btn_post_disabled (fst (textarea_keys pg e s)) =
    negb ((4 <? JsString.len (JsString.trim (textarea s)))
          && within_max pg (JsString.len (JsString.trim (textarea s)))).
Proof.
  rewrite textarea_keys_cases.
  destruct (within_max pg _); cbn [negb].
  - destruct (4 <? _); [destruct (is_enter e s)|]; cbn [fst andb negb];
      [rewrite submit_enabled by reflexivity|..]; reflexivity.
  - now rewrite andb_false_r.
Qed.

Lemma keystroke_posts_iff_aux (e : key_event) (s : state) :
  snd (textarea_keys pg e s) =
    if (4 <? JsString.len (JsString.trim (textarea s)))
       && within_max pg (JsString.len (JsString.trim (textarea s))) && is_enter e s
    then [Fetch "/api/v0.1/activity" "post" (form_data pg s)
                (Submitted (JsString.trim (textarea s)));
          PreventDefault]
    else [].
Proof.
  rewrite textarea_keys_cases.
  destruct (within_max pg _); cbn [negb].
  - rewrite andb_true_r. destruct (4 <? _); [|reflexivity].
    now destruct (is_enter e s).
  - now rewrite andb_false_r.
Qed.

End KeysAux.

(** X8. The draft entry of the cache holds the text of the box after every
    keystroke-class event, whatever it held before, and after every failed
    submission; and no handler but these and [submitStatusUpdate] writes
    either: once they agree, they still do after a click on a GIF, a call of
    [submitStatusUpdate], and every answer to a preview or user lookup.
    (An edit of the box takes them apart until the next keystroke-class
    event; the input handler, which runs in between, writes neither.)  The
    answer to a successful submission is the exception: with a feed on the
    page it empties a box the user has typed into since, and the cache keeps
    what was typed. *)
Theorem draft_cache_in_sync (pg : page) :
  (forall e s, cache_in_sync pg (fst (textarea_keys pg e s))) /\
  (forall m o later, failed o = true -> cache_in_sync pg (fst (on_submitted pg m o later))) /\
  (forall e s,
     localStorage (fst (textarea_input pg e s)) = localStorage s /\
     textarea (fst (textarea_input pg e s)) = textarea s) /\
  (forall s, cache_in_sync pg s ->
     (forall src, cache_in_sync pg (selectGif src s)) /\
     cache_in_sync pg (fst (submitStatusUpdate pg s)) /\
     (forall id y items, cache_in_sync pg (on_video_data id y items s)) /\
     (forall url r, cache_in_sync pg (on_metadata url r s)) /\
     (forall w f data, cache_in_sync pg (on_users pg w f data s)) /\
     (forall m, activities s <> None -> textarea s <> "" ->
                ~ cache_in_sync pg (fst (on_submitted pg m (Status 200) s)))).
Proof.
  unfold cache_in_sync. split; [|split; [|split]].
  - intros e s. rewrite textarea_keys_cases.
    destruct (counted_frame pg s) as (Ht & _ & _ & _ & _ & _ & _ & Hls).
    destruct (negb _); [|destruct (4 <? _); [destruct (is_enter e s)|]]; cbn [fst].
    + cbn [localStorage textarea set_btn_post_disabled set_textarea_red].
      rewrite Ht, Hls. apply lookup_insert_eq.
    + rewrite submit_enabled by reflexivity. apply lookup_insert_eq.
    + cbn [localStorage textarea set_btn_post_disabled set_textarea_red].
      rewrite Ht, Hls. apply lookup_insert_eq.
    + cbn [localStorage textarea set_btn_post_disabled set_textarea_red].
      rewrite Ht, Hls. apply lookup_insert_eq.
  - intros m o later Hfail. rewrite on_submitted_failed by assumption.
    cbn. apply lookup_insert_eq.
  - intros e s. destruct (textarea_input_frame pg e s) as (-> & -> & _).
    split; reflexivity.
  - intros s Hs. repeat split.
    + intros src. exact Hs.
    + unfold submitStatusUpdate. destruct (btn_post_disabled s); [exact Hs|].
      cbn. apply lookup_insert_eq.
    + intros id y [|title items]; exact Hs.
    + intros url [r|]; [|exact Hs]. unfold on_metadata, text_opt.
      destruct (desc (meta_description r)), (JsString.truthy (meta_image r)); exact Hs.
    + intros w f data. exact Hs.
    + intros m Hfeed Htext. cbn. unfold saved. cbn.
      destruct (activities s); [|contradiction]. cbn. rewrite Hs. congruence.
Qed.

Lemma draft_cache_in_sync_witness :
  cache_in_sync anonymous cached /\
  cache_in_sync anonymous (selectGif giphy_src cached).
Proof.
  destruct (draft_cache_in_sync anonymous) as (Hkeys & _ & _ & Hkeep).
  assert (H : cache_in_sync anonymous cached) by apply Hkeys.
  split; [exact H|]. exact (proj1 (Hkeep cached H) giphy_src).
Defined.

(** X9. After a keystroke-class event the post button is enabled exactly
    when the trimmed text, as it was when the event came, has from 5
    characters to the maximum.  The red mark is set over the maximum and
    removed in that range; a text of fewer than 5 characters leaves it as
    it was, so a box emptied in one stroke from over the maximum stays
    red. *)
Theorem post_button_mirrors_length (pg : page) (e : key_event) (s : state) :
  let len := JsString.len (JsString.trim (textarea s)) in
  let s' := fst (textarea_keys pg e s) in
  btn_post_disabled s' = negb ((4 <? len) && within_max pg len) /\
  textarea_red s' =
    (if negb (within_max pg len) then true
     else if 4 <? len then false else textarea_red s).
Proof.
  intros len s'. subst s'. rewrite textarea_keys_cases. fold len.
  destruct (counted_frame pg s) as (_ & _ & _ & _ & _ & _ & Hred & _).
  destruct (within_max pg len); cbn [negb].
  - destruct (4 <? len); [destruct (is_enter e s)|]; cbn [fst andb negb].
    + rewrite submit_enabled by reflexivity. split; reflexivity.
    + split; reflexivity.
    + split; [reflexivity | exact Hred].
  - rewrite andb_false_r. split; reflexivity.
Qed.

(** X10. A keystroke-class event posts exactly when the trimmed text has
    from 5 characters to the maximum and the key is Enter, without shift, in
    the focused box, whether the button was enabled before or not.  The
    request then carries the form of the state as the event found it. *)
Theorem keystroke_posts_iff (pg : page) (e : key_event) (s : state) :
  let len := JsString.len (JsString.trim (textarea s)) in
  snd (textarea_keys pg e s) =
    if (4 <? len) && within_max pg len && is_enter e s
    then [Fetch "/api/v0.1/activity" "post" (form_data pg s)
                (Submitted (JsString.trim (textarea s)));
          PreventDefault]
    else [].
Proof. intros len. apply keystroke_posts_iff_aux. Qed.

(** X11. Enter posts once: after a keystroke that posted, the box is empty,
    and whatever keystroke-class event comes next (the [keyup] of the same
    key) sends nothing and disables the button. *)
Theorem enter_posts_once (pg : page) (e e2 : key_event) (s : state) :
  snd (textarea_keys pg e s) <> [] ->
  let s1 := fst (textarea_keys pg e s) in
  textarea s1 = "" /\
  snd (textarea_keys pg e2 s1) = [] /\
  btn_post_disabled (fst (textarea_keys pg e2 s1)) = true.
Proof.
  intros Hposted s1.
  assert (Hempty : textarea s1 = "").
  { subst s1. rewrite keystroke_posts_iff_aux in Hposted.
    rewrite textarea_keys_cases.
    destruct (4 <? _), (within_max pg _), (is_enter e s);
      cbn [negb andb] in *; try (exfalso; now apply Hposted).
    cbn [fst]. now rewrite submit_enabled by reflexivity. }
  split; [exact Hempty|].
  pose proof (post_button_mirrors_length_aux pg e2 s1) as Hbtn.
  pose proof (keystroke_posts_iff_aux pg e2 s1) as Hfx.
  rewrite Hempty in Hbtn, Hfx. cbn in Hbtn, Hfx. split; assumption.
Qed.

Lemma enter_posts_once_witness :
  snd (textarea_keys anonymous enter typed) <> [] /\
  snd (textarea_keys anonymous enter (fst (textarea_keys anonymous enter typed))) = [].
Proof.
  assert (H : snd (textarea_keys anonymous enter typed) <> []) by discriminate.
  split; [exact H|].
  exact (proj1 (proj2 (enter_posts_once anonymous enter enter typed H))).
Defined.

(** ** What a submission carries *)

Section Carried.

Variable pg : page.

Lemma poll_fields_not_data (s : state) (l : list nat) :
  List.filter (key_is "data") (flat_map (poll_field s) l) = [].
Proof.
  induction l as [|i l IH]; [reflexivity|].
  cbn [flat_map]. rewrite List.filter_app, IH, app_nil_r.
  unfold poll_field. destruct (poll_val i s) as [val|]; [|reflexivity].
  destruct (JsString.truthy val); reflexivity.
Qed.

Lemma resource_fields_not_data (s : state) :
  List.filter (key_is "data") (resource_fields s) = [].
Proof. rewrite resource_fields_spec. now destruct (spec_shape s). Qed.

(** The fields of the form that do not come from the embed or the poll. *)
Lemma form_data_closed (s : state) :
  poll_container s = None -> video_container s = None ->
  form_data pg s =
    [("ask", ask pg); ("data", JsString.trim (textarea s)); ("what", what pg);
     ("tab", tab pg); ("csrfmiddlewaretoken", csrfmiddlewaretoken pg)]
    ++ resource_fields s.
Proof.
  intros Hp Hv. unfold form_data, poll_field, poll_val. rewrite Hp, Hv. cbn.
  now rewrite app_nil_r.
Qed.

End Carried.

(** X12. Every form has one [data] entry, the trimmed text of the box: it
    has no white space at either end and another [trim] would leave it as it
    is. *)
Theorem posted_message_is_trimmed (pg : page) (s : state) :
  List.filter (key_is "data") (form_data pg s) = [("data", JsString.trim (textarea s))] /\
  edges_clean (JsString.trim (textarea s)) = true /\
  JsString.trim (JsString.trim (textarea s)) = JsString.trim (textarea s) /\
  JsString.len (JsString.trim (textarea s)) <= JsString.len (textarea s).
Proof.
  destruct (trim_spec (textarea s)) as (Hclean & Hidem & Hlen).
  split; [|auto]. unfold form_data. rewrite !List.filter_app.
  rewrite poll_fields_not_data, resource_fields_not_data.
  now destruct (video_container s).
Qed.

(** X13. Posting again after a failure sends the same message and the same
    resource fields, without the poll options and the decoration the first
    attempt carried: the button is still enabled, and the form is the five
    plain fields followed by the fields of the embed. *)
Theorem retry_after_failure (pg : page) (s : state) (o : outcome) :
  btn_post_disabled s = false ->
  failed o = true ->
  let m := JsString.trim (textarea s) in
  let back := fst (on_submitted pg m o (fst (submitStatusUpdate pg s))) in
  submitStatusUpdate pg back =
    (fst (submitStatusUpdate pg s),
     [Fetch "/api/v0.1/activity" "post"
            ([("ask", ask pg); ("data", m); ("what", what pg); ("tab", tab pg);
              ("csrfmiddlewaretoken", csrfmiddlewaretoken pg)]
             ++ resource_fields s)
            (Submitted m)]).
Proof.
  intros Hon Hfail m back.
  destruct (trim_spec (textarea s)) as (_ & Hidem & _). fold m in Hidem.
  assert (Hback : back =
            State (embedded_resource s) (<[lskey pg := m]> (localStorage s)) m
                  (textarea_red s) (textarea_focus s) (btn_post_disabled s) (char_count s)
                  (thumb s) (prev s) (menu s) None None (activities s)).
  { subst back. rewrite (submit_enabled pg s Hon). cbn [fst].
    rewrite on_submitted_failed by assumption. rewrite fail_callback_frame.
    unfold set_video_container, set_poll_container, setItem, set_textarea.
    cbn [embedded_resource localStorage textarea textarea_red textarea_focus
         btn_post_disabled char_count thumb prev menu poll_container video_container
         activities].
    now rewrite insert_insert_eq. }
  rewrite Hback. clear Hback back.
  rewrite !submit_enabled by exact Hon. cbn [fst].
  rewrite form_data_closed by reflexivity. cbn [textarea]. rewrite Hidem.
  unfold set_video_container, set_poll_container, setItem, set_textarea.
  cbn [embedded_resource localStorage textarea textarea_red textarea_focus
       btn_post_disabled char_count thumb prev menu poll_container video_container
       activities].
  rewrite insert_insert_eq. reflexivity.
Qed.

Lemma retry_after_failure_witness :
  btn_post_disabled draft = false /\ failed (Status 500) = true /\
  snd (submitStatusUpdate anonymous
         (fst (on_submitted anonymous "hello world" (Status 500)
                 (fst (submitStatusUpdate anonymous draft))))) =
    [Fetch "/api/v0.1/activity" "post"
           [("ask", ""); ("data", "hello world"); ("what", "status_update");
            ("tab", "everywhere"); ("csrfmiddlewaretoken", "token")]
           (Submitted "hello world")].
Proof.
  split; [reflexivity|]. split; [reflexivity|].
  pose proof (retry_after_failure anonymous draft (Status 500) eq_refl eq_refl) as H.
  cbv zeta in H. change (JsString.trim (textarea draft)) with "hello world" in H.
  rewrite H. reflexivity.
Defined.

(** X14. A successful submission releases the composer: whatever was
    embedded, a selected GIF too, [embedded_resource] is empty afterwards, no
    GIF locks the input handler and the next form has no resource field.  A
    failed one changes none of that. *)
Theorem success_releases_embed (pg : page) (m : string) (later : state) :
  (let s' := fst (on_submitted pg m (Status 200) later) in
   embedded_resource s' = "" /\ gif_locked s' = false /\ resource_fields s' = [] /\
   thumb s' = Thumbnail false "" "" "" "" (thumbnail_img_padded (thumb later))
                        (thumbnail_img_width (thumb later)) /\
   prev s' = Preview false "") /\
  (forall o, failed o = true ->
     let s' := fst (on_submitted pg m o later) in
     embedded_resource s' = embedded_resource later /\
     gif_locked s' = gif_locked later /\ resource_fields s' = resource_fields later).
Proof.
  split.
  - cbn. unfold saved. destruct (activities _); repeat split.
  - intros o Hfail. cbn zeta. rewrite on_submitted_failed by assumption.
    repeat split.
Qed.

(** X15. What is posted for a link is what the metadata answer said: once
    the answer for [url] has come, the form carries the content shape with
    the link of the answer as provider, [url] as id, the title, the
    description (cut as displayed; the one of the thumbnail when the answer
    has none) and the image of the answer, or the placeholder.  This for a
    [url] that matches neither the GIF nor the YouTube pattern; a [url] with
    [giphy.com/media/] in it is posted as a GIF, and locks the composer. *)
Theorem link_answer_then_post (url : string) (r : meta) (later : state) :
  let s := on_metadata url (Some r) later in
  let description :=
    match desc (meta_description r) with
    | Some d => d
    | None => thumbnail_desc (thumb later)
    end in
  let image :=
    if JsString.truthy (meta_image r) then meta_image r
    else "https://s.gitcoin.co/static/v2/images/team/gitcoinbot.c1e81ab42f13.png" in
  (JsString.truthy url = true -> match_ giphy_re url = None -> youtube_id url = None ->
   resource_fields s =
     [("resource", "content"); ("resourceProvider", meta_link r); ("resourceId", url);
      ("title", meta_title r); ("description", description); ("image", image)]) /\
  (piece "giphy.com/media/" url ->
   gif_locked s = true /\
   resource_fields s =
     [("resource", "gif"); ("resourceProvider", "giphy"); ("resourceId", url)]).
Proof.
  intros s description image.
  assert (Hs : embedded_resource s = url /\ thumbnail_title (thumb s) = meta_title r /\
               thumbnail_provider (thumb s) = meta_link r /\
               thumbnail_desc (thumb s) = description /\ thumbnail_img (thumb s) = image).
  { subst s description image. unfold on_metadata, text_opt.
    destruct (desc (meta_description r)), (JsString.truthy (meta_image r)); repeat split. }
  destruct Hs as (He & Ht & Hp & Hd & Hi).
  rewrite resource_fields_spec. unfold spec_shape, gif_locked.
  rewrite He, Ht, Hp, Hd, Hi. split.
  - intros Htruthy Hgif Hyt. now rewrite Hgif, Hyt, Htruthy.
  - intros Hpiece. apply giphy_re_piece in Hpiece.
    destruct (match_ giphy_re url); [split; reflexivity | congruence].
Qed.

Lemma link_answer_then_post_witness :
  JsString.truthy "https://gitcoin.co" = true /\
  match_ giphy_re "https://gitcoin.co" = None /\
  youtube_id "https://gitcoin.co" = None /\
  resource_fields (on_metadata "https://gitcoin.co" (Some gitcoin_meta) blank) =
    [("resource", "content"); ("resourceProvider", "gitcoin.co");
     ("resourceId", "https://gitcoin.co"); ("title", "Gitcoin");
     ("description", "Grow open source");
     ("image", "https://s.gitcoin.co/static/v2/images/team/gitcoinbot.c1e81ab42f13.png")].
Proof.
  split; [reflexivity|]. split; [reflexivity|]. split; [reflexivity|].
  exact (proj1 (link_answer_then_post "https://gitcoin.co" gitcoin_meta blank)
               eq_refl eq_refl eq_refl).
Defined.

(** X16. A click on a grid image whose [.data('src')] is a string with
    [giphy.com/media/] in it makes the next form carry the GIF shape with
    that string as id, shows the GIF preview and hides the thumbnail,
    whatever was embedded before. *)
Theorem gif_click_then_post (pg : page) (src : string) (s : state) :
  piece "giphy.com/media/" src ->
  let s' := selectGif src s in
  resource_fields s' =
    [("resource", "gif"); ("resourceProvider", "giphy"); ("resourceId", src)] /\
  List.filter is_shape_key (form_data pg s') =
    [("resource", "gif"); ("resourceProvider", "giphy"); ("resourceId", src)] /\
  prev s' = Preview true src /\ thumbnail_shown (thumb s') = false.
Proof.
  intros Hpiece s'. apply giphy_re_piece in Hpiece.
  assert (H : resource_fields s' =
              [("resource", "gif"); ("resourceProvider", "giphy"); ("resourceId", src)]).
  { rewrite resource_fields_spec. unfold spec_shape. subst s'. cbn [embedded_resource selectGif
      thumbnail_show preview_show preview_img_src set_embedded_resource set_thumb set_prev].
    destruct (match_ giphy_re src); [reflexivity | congruence]. }
  split; [exact H|]. split; [|split; reflexivity].
  destruct (form_data_shape pg s') as [-> _]. now rewrite <- resource_fields_spec.
Qed.

Lemma gif_click_then_post_witness :
  piece "giphy.com/media/" giphy_src /\
  resource_fields (selectGif giphy_src draft) =
    [("resource", "gif"); ("resourceProvider", "giphy"); ("resourceId", giphy_src)].
Proof.
  assert (H : piece "giphy.com/media/" giphy_src)
    by (exists "https://media0.", "l0HlBO7eyXzSZkJri/giphy.webp"; reflexivity).
  split; [exact H|].
  exact (proj1 (gif_click_then_post anonymous giphy_src draft H)).
Defined.

(** ** The draft across page loads *)

Section Draft.

Variable pg : page.

Lemma keys_cache (e : key_event) (s : state) :
  cache_in_sync pg (fst (textarea_keys pg e s)).
Proof.
  unfold cache_in_sync. rewrite textarea_keys_cases.
  destruct (counted_frame pg s) as (Ht & _ & _ & _ & _ & _ & _ & Hls).
  destruct (negb _); [|destruct (4 <? _); [destruct (is_enter e s)|]]; cbn [fst];
    try (rewrite submit_enabled by reflexivity; apply lookup_insert_eq);
    cbn [localStorage textarea set_btn_post_disabled set_textarea_red];
    rewrite Ht, Hls; apply lookup_insert_eq.
Qed.

Lemma reload_spec (fresh old : state) :
  cache_in_sync pg old ->
  textarea (reload pg fresh old) =
    (if JsString.truthy (textarea old) then textarea old else textarea fresh) /\
  embedded_resource (reload pg fresh old) = "" /\
  thumb (reload pg fresh old) = thumb fresh.
Proof.
  unfold cache_in_sync, reload, restore_draft. cbn [localStorage]. intros ->.
  destruct (JsString.truthy (textarea old)); repeat split.
Qed.

End Draft.

(** X17. The text comes back after a page load, the embed does not: when
    the cache is in step with the box (as after any keystroke-class event),
    a load puts the text of the box back unless it was empty, with
    [embedded_resource] empty again; so a form posted before the next input
    event carries no resource field, whatever link the text holds. *)
Theorem draft_survives_reload (pg : page) (e : key_event) (fresh old : state) :
  (cache_in_sync pg old ->
   textarea (reload pg fresh old) =
     (if JsString.truthy (textarea old) then textarea old else textarea fresh) /\
   embedded_resource (reload pg fresh old) = "" /\
   resource_fields (reload pg fresh old) = []) /\
  (let typed := fst (textarea_keys pg e old) in
   textarea (reload pg fresh typed) =
     (if JsString.truthy (textarea typed) then textarea typed else textarea fresh)).
Proof.
  split.
  - intros Hsync. destruct (reload_spec pg fresh old Hsync) as (Ht & He & _).
    split; [exact Ht|]. split; [exact He|].
    unfold resource_fields. now rewrite He.
  - cbn zeta. exact (proj1 (reload_spec pg fresh _ (keys_cache pg e old))).
Qed.

Lemma draft_survives_reload_witness :
  cache_in_sync anonymous cached /\
  textarea (reload anonymous blank cached) = "hello world" /\
  resource_fields (reload anonymous blank cached) = [].
Proof.
  assert (H : cache_in_sync anonymous cached) by apply keys_cache.
  destruct (proj1 (draft_survives_reload anonymous enter blank cached) H)
    as (Ht & _ & Hr).
  split; [exact H|]. split; [exact Ht | exact Hr].
Defined.

(** ** The poll and the decoration *)

Section Toggles.

Lemma poll_click_keeps (t : toolbar) (s : state) :
  poll_open_selected t s ->
  poll_open_selected (fst (poll_button_click t s)) (snd (poll_button_click t s)).
Proof.
  unfold poll_open_selected, poll_button_click. cbn.
  destruct (poll_selected t); cbn; [congruence | reflexivity].
Qed.

End Toggles.

(** X18. The poll button and the poll fall out of step at a submission:
    the submission removes an open poll but leaves the button selected, so
    the next click on the button only deselects it, and it takes a second
    click to get a poll again, a fresh one with four empty options.  Until
    a submission, an open poll always has its button selected. *)
Theorem poll_button_after_post (pg : page) (t : toolbar) (s : state) :
  (poll_open_selected t s ->
   poll_open_selected (fst (poll_button_click t s)) (snd (poll_button_click t s))) /\
  (poll_selected t = true -> btn_post_disabled s = false ->
   let sent := fst (submitStatusUpdate pg s) in
   let once := poll_button_click t sent in
   let twice := poll_button_click (fst once) (snd once) in
   poll_container sent = None /\
   poll_selected (fst once) = false /\ poll_container (snd once) = None /\
   poll_selected (fst twice) = true /\ poll_container (snd twice) = Some fresh_poll).
Proof.
  split; [apply poll_click_keeps|].
  intros Hsel Hon. cbn zeta. rewrite (submit_enabled pg s Hon).
  unfold poll_button_click. rewrite Hsel. repeat split.
Qed.

Lemma poll_button_after_post_witness :
  poll_selected both_on = true /\ btn_post_disabled draft = false /\
  poll_container
    (snd (poll_button_click both_on (fst (submitStatusUpdate anonymous draft)))) = None.
Proof.
  split; [reflexivity|]. split; [reflexivity|].
  exact (proj1 (proj2 (proj2 (proj2 (poll_button_after_post anonymous both_on draft)
                                    eq_refl eq_refl)))).
Defined.



(** ** Matching again what was matched *)

Section Again.

Variable post : string.

Lemma cut_app (l1 s1 l2 s2 : list pos) :
  cut post l1 s1 -> cut post l2 s2 -> cut post (l1 ++ l2) (s1 ++ s2).
Proof.
  induction 1; intros H2; cbn [app]; [assumption | |].
  - apply cut_keep; auto.
  - apply cut_drop; auto.
Qed.

Lemma cut_all_drop (l : list pos) :
  Forall (fun q => String.length (ahead q) < String.length post) l -> cut post l [].
Proof. induction 1; [constructor | now apply cut_drop]. Qed.

(** A run is never longer than the text ahead. *)
Lemma run_shorter (r : regex) (p q : pos) :
  In q (run r p) -> String.length (ahead q) <= String.length (ahead p).
Proof.
  intros H. apply run_ahead in H as [t ->]. rewrite length_append. lia.
Qed.

Lemma run_all_drop (r : regex) (p : pos) :
  String.length (ahead p) < String.length post ->
  Forall (fun q => String.length (ahead q) < String.length post) (run r p).
Proof.
  intros Hp. apply List.Forall_forall. intros q Hq.
  apply run_shorter in Hq. lia.
Qed.

Lemma eat_cut (lit : string) :
  forall bl bs x,
    match eat lit bs x with
    | Some (_, x') => exists b, eat lit bl (x +:+ post) = Some (b, x' +:+ post)
    | None =>
        match eat lit bl (x +:+ post) with
        | Some (_, rest) => String.length rest < String.length post
        | None => True
        end
    end.
Proof.
  induction lit as [|c lit IH]; intros bl bs x.
  - cbn. eauto.
  - destruct x as [|d x].
    + change ("" +:+ post) with post.
      change (eat (String c lit) bs "") with (@None (option ascii * string)). cbv iota.
      destruct (eat (String c lit) bl post) as [[b rest]|] eqn:E; [|exact I].
      apply eat_spec in E. rewrite E, length_append. cbn. lia.
    + change (String d x +:+ post) with (String d (x +:+ post)). cbn [eat].
      destruct (Ascii.eqb c d); [apply IH | exact I].
Qed.

(** A run of [a{lo,hi}] is the longer runs, then the stop where it began. *)
Lemma rep_split (a : atom) (lo : nat) (hi : option nat) (b : option ascii)
    (s : string) (cs : list (nat * string)) :
  exists l,
    rep a lo hi b s cs = l ++ (if lo =? 0 then [Pos b s cs] else []) /\
    Forall (fun q => String.length (ahead q) < String.length s) l.
Proof.
  destruct s as [|c s]; cbn [rep].
  - exists []. split; [reflexivity | constructor].
  - destruct (more hi && atom_mem a c).
    + eexists. split; [reflexivity|]. apply List.Forall_forall. intros q Hq.
      apply rep_spec in Hq as [_ (taken & Hs & _)].
      cbn. rewrite Hs, length_append. lia.
    + exists []. split; [reflexivity | constructor].
Qed.

Lemma rep_cut (a : atom) (x : string) :
  forall lo hi bl bs cs,
    cut post (rep a lo hi bl (x +:+ post) cs) (rep a lo hi bs x cs).
Proof.
  induction x as [|c x IH]; intros lo hi bl bs cs.
  - change ("" +:+ post) with post.
    destruct (rep_split a lo hi bl post cs) as (l & -> & Hl).
    change (rep a lo hi bs "" cs) with ([] ++ if lo =? 0 then [Pos bs "" cs] else []).
    apply cut_app; [now apply cut_all_drop|].
    destruct (lo =? 0); [|constructor]. apply cut_keep; [reflexivity..|constructor].
  - change (String c x +:+ post) with (String c (x +:+ post)). cbn [rep].
    assert (Hstop : cut post (if lo =? 0 then [Pos bl (String c (x +:+ post)) cs] else [])
                             (if lo =? 0 then [Pos bs (String c x) cs] else [])).
    { destruct (lo =? 0); [|constructor]. apply cut_keep; [reflexivity..|constructor]. }
    destruct (more hi && atom_mem a c); [|exact Hstop].
    apply cut_app; [apply IH | exact Hstop].
Qed.

(** The same capture over the longer text. *)
Lemma consumed_cut (xs ys : string) :
  (exists t, xs = t +:+ ys) -> consumed (xs +:+ post) (ys +:+ post) = consumed xs ys.
Proof.
  intros [t ->]. rewrite consumed_append.
  replace ((t +:+ ys) +:+ post) with (t +:+ (ys +:+ post)) by now rewrite append_assoc3.
  apply consumed_append.
Qed.

Lemma map_cut (fl fs : pos -> pos) (l s : list pos) (P : pos -> Prop) :
  (forall ql, ahead (fl ql) = ahead ql) ->
  (forall ql qs, P qs -> ahead ql = ahead qs +:+ post -> caps ql = caps qs ->
                 ahead (fs qs) = ahead qs /\ caps (fl ql) = caps (fs qs)) ->
  Forall P s -> cut post l s -> cut post (map fl l) (map fs s).
Proof.
  intros Hfl Hf HP H. induction H; cbn [map].
  - constructor.
  - inversion HP; subst. destruct (Hf ql qs) as [Ha Hc]; try assumption.
    apply cut_keep; [now rewrite Hfl, Ha | exact Hc | auto].
  - apply cut_drop; [now rewrite Hfl | auto].
Qed.

(** Runs of a plain pattern over a text and over the text followed by
    [post]. *)
Lemma run_cut (r : regex) :
  plain r = true ->
  forall pl ps,
    ahead pl = ahead ps +:+ post -> caps pl = caps ps ->
    cut post (run r pl) (run r ps).
Proof.
  induction r as [lit|a|a lo hi|r1 IH1 r2 IH2|r1 IH1 r2 IH2|r IH|i r IH|r IH|];
    intros Hplain pl ps Ha Hc; cbn [plain] in Hplain; try discriminate; cbn [run].
  - rewrite Ha, Hc. pose proof (eat_cut lit (before pl) (before ps) (ahead ps)) as H.
    destruct (eat lit (before ps) (ahead ps)) as [[b x']|].
    + destruct H as [b' ->]. apply cut_keep; [reflexivity..|constructor].
    + destruct (eat lit (before pl) (ahead ps +:+ post)) as [[b rest]|]; [|constructor].
      apply cut_drop; [exact H | constructor].
  - rewrite Ha, Hc. destruct (ahead ps) as [|c x].
    + change ("" +:+ post) with post. destruct post as [|d post'] eqn:E; [constructor|].
      destruct (atom_mem a d); [|constructor].
      apply cut_drop; [cbn; lia | constructor].
    + change (String c x +:+ post) with (String c (x +:+ post)). cbv iota.
      destruct (atom_mem a c); [|constructor].
      apply cut_keep; [reflexivity..|constructor].
  - rewrite Ha, Hc. apply rep_cut.
  - apply andb_prop in Hplain as [H1 H2].
    specialize (IH1 H1 pl ps Ha Hc).
    induction IH1 as [|ql qs l s Hqa Hqc _ IHc|ql l s Hshort _ IHc]; cbn [flat_map].
    + constructor.
    + apply cut_app; [now apply IH2 | exact IHc].
    + apply (cut_app _ [] _ _); [|exact IHc].
      apply cut_all_drop. now apply run_all_drop.
  - apply andb_prop in Hplain as [H1 H2]. apply cut_app; auto.
  - apply cut_app; [auto|]. apply cut_keep; [assumption..|constructor].
  - apply (map_cut _ _ _ _ (fun qs => exists t, ahead ps = t +:+ ahead qs)).
    + reflexivity.
    + intros ql qs Hsuf Hqa Hqc. split; [reflexivity|]. cbn [caps].
      now rewrite Ha, Hqa, Hqc, consumed_cut.
    + apply List.Forall_forall. intros qs Hqs. exact (run_ahead _ _ _ Hqs).
    + auto.
Qed.

End Again.

Section Rematch.

Lemma flat_map_flat_map (A B C : Type) (f : A -> list B) (g : B -> list C) (l : list A) :
  flat_map g (flat_map f l) = flat_map (fun x => flat_map g (f x)) l.
Proof.
  induction l as [|x l IH]; [reflexivity|]. cbn [flat_map].
  now rewrite List.flat_map_app, IH.
Qed.

(** Sequences nest either way. *)
Lemma run_Seq4 (a b c g n : regex) (p : pos) :
  run (Seq a (Seq b (Seq c (Seq g n)))) p =
    flat_map (run n) (run (Seq a (Seq b (Seq c g))) p).
Proof.
  cbn [run]. rewrite flat_map_flat_map. apply List.flat_map_ext. intros x.
  rewrite flat_map_flat_map. apply List.flat_map_ext. intros y.
  now rewrite flat_map_flat_map.
Qed.

(** [youtube_re] is its body followed by the look-ahead. *)
Lemma youtube_re_body (p : pos) :
  run youtube_re p =
    flat_map (run (NotAhead (One (Class [CWord; CChar "-"])))) (run youtube_body p).
Proof. unfold youtube_re, youtube_body. apply run_Seq4. Qed.

Lemma run_look (q : pos) :
  run (NotAhead (One (Class [CWord; CChar "-"]))) q = if id_ends (ahead q) then [q] else [].
Proof.
  cbn [run]. unfold id_ends. destruct (ahead q) as [|c s]; [reflexivity|].
  now destruct (atom_mem _ c).
Qed.

Lemma look_passed (l : list pos) (q : pos) :
  In q (flat_map (run (NotAhead (One (Class [CWord; CChar "-"])))) l) ->
  id_ends (ahead q) = true.
Proof.
  intros H. apply in_flat_map in H as (q0 & _ & H). rewrite run_look in H.
  destruct (id_ends (ahead q0)) eqn:E; [|contradiction]. now destruct H as [<-|[]].
Qed.

(** The best match over the longer text, when it ends where [post] starts,
    is the best match over the shorter one. *)
Lemma cut_head (post : string) (L S : list pos) :
  cut post L S ->
  forall q rest,
    flat_map (run (NotAhead (One (Class [CWord; CChar "-"])))) L = q :: rest ->
    ahead q = post ->
    exists qs rest',
      flat_map (run (NotAhead (One (Class [CWord; CChar "-"])))) S = qs :: rest' /\
      ahead qs = "" /\ caps qs = caps q.
Proof.
  intros Hcut q rest HL Hq.
  assert (Hpass : id_ends post = true).
  { rewrite <- Hq. apply (look_passed L). rewrite HL. now left. }
  induction Hcut as [|ql qs l s Ha Hc _ IH|ql l s Hshort _ IH]; cbn [flat_map] in *.
  - discriminate.
  - rewrite !run_look in *. rewrite Ha in HL. destruct (ahead qs) as [|c x] eqn:Eqs.
    + change ("" +:+ post) with post in *. rewrite Hpass in HL.
      injection HL as <- _. exists qs. eexists. split; [reflexivity|]. auto.
    + change (String c x +:+ post) with (String c (x +:+ post)) in *.
      change (id_ends (String c (x +:+ post))) with (id_ends (String c x)) in HL.
      destruct (id_ends (String c x)); [|now apply IH].
      injection HL as <- _. rewrite Ha in Hq.
      apply (f_equal String.length) in Hq. cbn in Hq. rewrite length_append in Hq. lia.
  - rewrite run_look in HL. destruct (id_ends (ahead ql)); [|now apply IH].
    injection HL as <- _. rewrite Hq in Hshort. lia.
Qed.

Lemma search_head (r : regex) (s : string) :
  forall b y, search r b s = Some y ->
    exists p q l,
      caps p = [] /\ run r p = q :: l /\
      y = Found (consumed (ahead p) (ahead q)) (caps q).
Proof.
  induction s as [|c s IH]; intros b y; cbn [search].
  - destruct (run r (Pos b "" [])) as [|q l] eqn:E; [discriminate|].
    intros [= <-]. exists (Pos b "" []), q, l. auto.
  - destruct (run r (Pos b (String c s) [])) as [|q l] eqn:E; [apply IH|].
    intros [= <-]. exists (Pos b (String c s) []), q, l. auto.
Qed.

Lemma search_now (r : regex) (b : option ascii) (s : string) (q : pos) (l : list pos) :
  run r (Pos b s []) = q :: l ->
  search r b s = Some (Found (consumed s (ahead q)) (caps q)).
Proof. intros H. destruct s; cbn [search]; now rewrite H. Qed.

(** What [youtube_re] found in a text it finds again, whole and with the
    same id, in what it found. *)
Lemma youtube_re_again (text : string) (y : found) :
  match_ youtube_re text = Some y -> match_ youtube_re (whole y) = Some y.
Proof.
  intros H. apply search_head in H as (p & q & l & Hcaps & Hrun & ->).
  assert (Hq : In q (run youtube_re p)) by (rewrite Hrun; now left).
  apply run_ahead in Hq as [w Hw]. rewrite Hw, consumed_append. cbn [whole].
  rewrite youtube_re_body in Hrun.
  assert (Hcut : cut (ahead q) (run youtube_body p) (run youtube_body (Pos None w []))).
  { apply run_cut; [reflexivity | exact Hw | exact Hcaps]. }
  destruct (cut_head _ _ _ Hcut q l Hrun eq_refl) as (qs & rest' & Hs & Ha & Hc).
  rewrite <- youtube_re_body in Hs.
  unfold match_. rewrite (search_now _ _ _ _ _ Hs), Ha, Hc.
  unfold consumed. cbn [String.length]. rewrite Nat.sub_0_r.
  pose proof (substring_append w "") as Hsub. rewrite append_empty_r in Hsub.
  now rewrite Hsub.
Qed.

End Rematch.

(** X20. What is posted for a video is what was looked up: once the answer
    for the id of a match has come with a title, the form carries the video
    shape with that id, the title of the answer and the thumbnail address
    made from the id, because the pattern finds in the matched text the
    match it found in the typed one.  The description is whatever the
    thumbnail held before: the answer does not write it.  This for a match
    without [giphy.com/media/] in it. *)
Theorem video_answer_then_post (text title : string) (items : list string)
    (y : found) (id : string) (later : state) :
  match_ youtube_re text = Some y ->
  group 1 y = Some id ->
  match_ giphy_re (whole y) = None ->
  let s := on_video_data id (whole y) (title :: items) later in
  match_ youtube_re (embedded_resource s) = Some y /\
  resource_fields s =
    [("resource", "video"); ("resourceProvider", "youtube"); ("resourceId", id);
     ("title", title); ("description", thumbnail_desc (thumb later));
     ("image", "https://img.youtube.com/vi/" +:+ id +:+ "/default.jpg")].
Proof.
  intros Hy Hid Hgif s.
  assert (Hagain : match_ youtube_re (whole y) = Some y) by exact (youtube_re_again _ _ Hy).
  destruct (youtube_re_group1 _ _ Hy) as (id' & Hid' & Hlen).
  rewrite Hid in Hid'. injection Hid' as <-.
  split; [exact Hagain|].
  rewrite resource_fields_spec. unfold spec_shape, youtube_id. subst s.
  cbn [on_video_data embedded_resource thumb set_embedded_resource thumbnail_show
       preview_show set_prev set_thumb thumbnail_img_src thumbnail_provider_text
       thumbnail_title_text thumbnail_title thumbnail_desc thumbnail_img].
  rewrite Hgif, Hagain, Hid. unfold JsString.len. rewrite Hlen. reflexivity.
Qed.

Lemma video_answer_then_post_witness :
  match_ youtube_re (value rickroll) = Some rickroll_found /\
  group 1 rickroll_found = Some "dQw4w9WgXcQ" /\
  match_ giphy_re (whole rickroll_found) = None /\
  resource_fields
    (on_video_data "dQw4w9WgXcQ" (whole rickroll_found) ["Never Gonna Give You Up"] blank) =
    [("resource", "video"); ("resourceProvider", "youtube"); ("resourceId", "dQw4w9WgXcQ");
     ("title", "Never Gonna Give You Up"); ("description", "");
     ("image", "https://img.youtube.com/vi/dQw4w9WgXcQ/default.jpg")].
Proof.
  split; [reflexivity|]. split; [reflexivity|]. split; [reflexivity|].
  exact (proj2 (video_answer_then_post (value rickroll) "Never Gonna Give You Up" []
                  rickroll_found "dQw4w9WgXcQ" blank eq_refl eq_refl eq_refl)).
Defined.
